(** * BitTipBot faucet statistics: the two reporting scripts

    [faucet_stats.py] reads faucet transactions from a local SQLite file,
    [get_faucet_stats.py] collects payments from the LNbits HTTP API.  Both
    accumulate per-user totals in dictionaries and print them sorted by
    amount.  The scripts are embedded below as Rocq functions: Python
    integers are [Z], Python strings are [string] (byte strings), a Python
    [dict] is an association list in insertion order, and the calls that
    leave the process (file test, SQLite, HTTP, the clock and the rules of
    the local time zone) are outcomes passed in. *)

From stdpp Require Import base list strings gmap sorting.
From Stdlib Require Import ZArith Lia Ascii String DecimalString.

Open Scope Z_scope.

(** ** Python built-ins used by the scripts *)

Module Py.

(** Exceptions that the external calls of the scripts can raise. *)
Inductive exn : Type :=
| IndexError
| Sqlite3Error (msg : string)
| RequestException (msg : string)
| JSONDecodeError (msg : string)
| AttributeError (msg : string)
| ValueError (msg : string)
| OverflowError (msg : string)
| OSError (msg : string).

(** Outcome of a call: a value, or an exception that unwinds to the caller. *)
Inductive result (A : Type) : Type :=
| Ok (a : A)
| Raise (e : exn).
Arguments Ok {A} a.
Arguments Raise {A} e.

(** Lines written by [print]. *)
Definition output : Type := list string.

(** A computation of the scripts: it prints, then returns or raises. *)
Definition io (A : Type) : Type := output * result A.

Definition io_ret {A : Type} (a : A) : io A := ([], Ok a).

Definition io_bind {A B : Type} (f : A → io B) (m : io A) : io B :=
  match m with
  | (o, Ok a) => let '(o', r) := f a in (o ++ o', r)
  | (o, Raise e) => (o, Raise e)
  end.

#[global] Instance io_mret : MRet io := @io_ret.
#[global] Instance io_mbind : MBind io := @io_bind.

Definition print (s : string) : io unit := ([s], Ok tt).
Definition raise {A : Type} (e : exn) : io A := ([], Raise e).
Definition lift {A : Type} (r : result A) : io A := ([], r).

(** [for x in l: body], threading the variables the body assigns. *)
Fixpoint for_each {A S : Type} (body : S → A → io S) (l : list A) (s : S)
  : io S :=
  match l with
  | [] => mret s
  | x :: l' => s' ← body s x; for_each body l' s'
  end.

Definition nl : string := String (ascii_of_nat 10) EmptyString.

(** *** The clock and the local time zone

    A naive [datetime] is a reading of the local wall clock, counted here
    in microseconds from 1970-01-01 00:00:00 on that wall clock.
    [wall_now] is [datetime.now()].  [timestamp w] is [dt.timestamp()] for
    the naive [dt] of reading [w]: the instant, in microseconds since the
    epoch, at which the local wall clock shows [w] by the rules of the
    zone.  [fromtimestamp t] is [datetime.fromtimestamp(t)] for [t] in
    seconds since the epoch: the reading of the local wall clock at that
    instant, or the exception raised for an instant that the platform or
    the type [datetime] cannot hold. *)
Record clock : Type := mk_clock {
  wall_now : Z;
  timestamp : Z → Z;
  fromtimestamp : Z → result Z
}.

(** A machine whose zone is UTC and whose clock shows [wall]: readings and
    instants coincide, and [fromtimestamp] accepts the years 1 to 9999. *)
Definition utc_clock (wall : Z) : clock :=
  {| wall_now := wall;
     timestamp := λ w, w;
     fromtimestamp := λ t,
       if (-62135596800 <=? t) && (t <=? 253402300799)
       then Ok (t * 1000000)
       else Raise (ValueError "year is out of range") |}.

(** *** Strings *)

(** [c.lower()] on one byte: only [A]..[Z] change. *)
Definition lower_ascii (c : ascii) : ascii :=
  let n := nat_of_ascii c in
  if ((65 <=? n) && (n <=? 90))%nat then ascii_of_nat (n + 32) else c.

(** [s.lower()].  On the bytes of a UTF-8 string the ASCII letters are
    the only bytes that can become a letter of ["faucet"], the one word
    the scripts look for in a lowered string. *)
Fixpoint lower (s : string) : string :=
  match s with
  | EmptyString => EmptyString
  | String c s' => String (lower_ascii c) (lower s')
  end.

(** [sub in s] *)
Fixpoint contains (sub s : string) : bool :=
  String.prefix sub s ||
  match s with
  | EmptyString => false
  | String _ s' => contains sub s'
  end.

(** [s.split(sep)] for a non-empty [sep]: scan from the left, cut at every
    occurrence of [sep], occurrences do not overlap.  [skip] counts the
    characters of a matched separator that are still to be dropped and [cur]
    is the piece read so far. *)
Fixpoint split_from (sep : string) (skip : nat) (cur : string) (s : string)
  : list string :=
  match s with
  | EmptyString => [cur]
  | String c s' =>
      match skip with
      | S k => split_from sep k cur s'
      | O =>
          if String.prefix sep s
          then cur :: split_from sep (String.length sep - 1) EmptyString s'
          else split_from sep O (cur +:+ String c EmptyString) s'
      end
  end.

Definition split (sep s : string) : list string :=
  split_from sep O EmptyString s.

(** [s[n:]] *)
Fixpoint drop_chars (n : nat) (s : string) : string :=
  match n, s with
  | O, _ => s
  | S n', String _ s' => drop_chars n' s'
  | S _, EmptyString => EmptyString
  end.

(** The text of [s] before the first occurrence of [sep], all of [s] when
    there is none, and the text after the first occurrence. *)
Fixpoint text_before (sep s : string) : string :=
  if String.prefix sep s then EmptyString
  else match s with
       | EmptyString => EmptyString
       | String c s' => String c (text_before sep s')
       end.

Fixpoint text_after (sep s : string) : string :=
  if String.prefix sep s then drop_chars (String.length sep) s
  else match s with
       | EmptyString => EmptyString
       | String _ s' => text_after sep s'
       end.

(** [c in chars] for a character *)
Fixpoint mem_char (c : ascii) (chars : string) : bool :=
  match chars with
  | EmptyString => false
  | String d chars' => Ascii.eqb c d || mem_char c chars'
  end.

(** [s.lstrip(chars)], [s.rstrip(chars)], [s.strip(chars)] *)
Fixpoint lstrip (chars s : string) : string :=
  match s with
  | EmptyString => EmptyString
  | String c s' => if mem_char c chars then lstrip chars s' else s
  end.

Fixpoint rstrip (chars s : string) : string :=
  match s with
  | EmptyString => EmptyString
  | String c s' =>
      match rstrip chars s' with
      | EmptyString => if mem_char c chars then EmptyString
                       else String c EmptyString
      | r => String c r
      end
  end.

Definition strip (chars s : string) : string := rstrip chars (lstrip chars s).

(** [s * n] *)
Fixpoint repeat_str (s : string) (n : nat) : string :=
  match n with
  | O => EmptyString
  | S n' => s +:+ repeat_str s n'
  end.

(** [f"{n:,.0f}"] for an integer [n] that a float holds exactly
    ([|n| <= 2^53]): the decimal digits in groups of three. *)
Fixpoint group3 (digits : string) : string :=
  match digits with
  | EmptyString => EmptyString
  | String c rest =>
      String c
        (if ((0 <? String.length rest) &&
             (String.length rest mod 3 =? 0))%nat
         then "," +:+ group3 rest else group3 rest)
  end.

Definition fmt_int (n : Z) : string :=
  (if n <? 0 then "-" else "") +:+
  group3 (NilZero.string_of_uint (N.to_uint (Z.abs_N n))).

(** [f"{n / 1000:,.0f}"] for an integer [n] with [|n| < 10^15]: the
    quotient rounded to the nearest integer, a half to the even one, and
    the sign of [n] even when the rounded value is zero. *)
Definition round_thousandth (a : Z) : Z :=
  let q := a / 1000 in
  let r := a mod 1000 in
  if r <? 500 then q
  else if 500 <? r then q + 1
  else if Z.even q then q else q + 1.

Definition fmt_msat (n : Z) : string :=
  (if n <? 0 then "-" else "") +:+
  group3 (NilZero.string_of_uint
            (N.to_uint (Z.to_N (round_thousandth (Z.abs n))))).

(** [sep.join(l)] *)
Fixpoint join (sep : string) (l : list string) : string :=
  match l with
  | [] => EmptyString
  | [x] => x
  | x :: l' => x +:+ sep +:+ join sep l'
  end.

(** *** Dictionaries with integer values

    A [dict] keeps its keys in insertion order and holds each key once.
    The keys are strings in [faucet_stats.py]; in [get_faucet_stats.py]
    they are what [get_telegram_username] returns, an optional string. *)
Definition dict (K : Type) : Type := list (K * Z).

Section Dict.
Context {K : Type} `{EqDecision K}.

(** [d.get(k, 0)]: the value at [k], zero for an absent key. *)
Fixpoint dict_get (d : dict K) (k : K) : Z :=
  match d with
  | [] => 0
  | (k', v) :: d' => if decide (k' = k) then v else dict_get d' k
  end.

(** [d[k] += a] on a [defaultdict(int)]: an absent key is first created
    with value [0], at the end of the dictionary. *)
Fixpoint dict_add (d : dict K) (k : K) (a : Z) : dict K :=
  match d with
  | [] => [(k, 0 + a)]
  | (k', v) :: d' =>
      if decide (k' = k) then (k', v + a) :: d'
      else (k', v) :: dict_add d' k a
  end.

Definition keys (d : dict K) : list K := map fst d.
Definition values (d : dict K) : list Z := map snd d.
Definition items (d : dict K) : list (K * Z) := d.

End Dict.

(** The key set of a dictionary, [set(d)]. *)
Definition key_set `{Countable K} (d : dict K) : gset K :=
  list_to_set (keys d).

(** Dictionaries with other values: [d.get(k, dflt)] and [d[k] = v]. *)
Section Store.
Context {V : Type}.

Fixpoint store_get (d : list (string * V)) (k : string) (dflt : V) : V :=
  match d with
  | [] => dflt
  | (k', v) :: d' => if decide (k' = k) then v else store_get d' k dflt
  end.

Fixpoint store_set (d : list (string * V)) (k : string) (v : V)
  : list (string * V) :=
  match d with
  | [] => [(k, v)]
  | (k', v') :: d' =>
      if decide (k' = k) then (k', v) :: d'
      else (k', v') :: store_set d' k v
  end.

End Store.

(** [sum(l)] *)
Definition sum (l : list Z) : Z := foldl Z.add 0 l.

(** *** [sorted(items, key=lambda x: x[1], reverse=True)]

    Python's sort is stable, also with [reverse=True]: items with equal
    values keep their relative order.  A stable sort has one possible
    result, computed here by insertion. *)
Fixpoint insert_desc {K : Type} (x : K * Z) (l : list (K * Z))
  : list (K * Z) :=
  match l with
  | [] => [x]
  | y :: l' => if x.2 <? y.2 then y :: insert_desc x l' else x :: l
  end.

Fixpoint sorted_by_value_desc {K : Type} (l : list (K * Z)) : list (K * Z) :=
  match l with
  | [] => []
  | x :: l' => insert_desc x (sorted_by_value_desc l')
  end.

(** The order of the rows of a report: the value does not go up; and the
    order with no two equal values. *)
Definition value_ge {K : Type} (x y : K * Z) : Prop := y.2 ≤ x.2.
Definition value_gt {K : Type} (x y : K * Z) : Prop := y.2 < x.2.

End Py.

(** ** SQLite values, [datetime(?, 'unixepoch')] and comparison *)

Module Sqlite.

(** A stored value with its storage class.  The content of a [REAL] plays
    no part in the scripts. *)
Inductive sql_value : Type :=
| SqlNull
| SqlInteger (n : Z)
| SqlReal
| SqlText (s : string)
| SqlBlob (b : string).

(** The civil date of a day number (days since 1970-01-01, proleptic
    Gregorian), computed on the day [doe] of a cycle of 400 years that
    starts on a 1 March: the year of the cycle, then the month and the day
    from the day of that year. *)
Definition year_days (doe : Z) : Z :=
  doe - doe / 1460 + doe / 36524 - doe / 146096.

Definition year_start (yoe : Z) : Z := 365 * yoe + yoe / 4 - yoe / 100.

Definition month_day (doy : Z) : Z * Z :=
  let mp := (5 * doy + 2) / 153 in
  let d := doy - (153 * mp + 2) / 5 + 1 in
  (if mp <? 10 then mp + 3 else mp - 9, d).

Definition civil_of_doe (doe : Z) : Z * Z * Z :=
  let yoe := year_days doe / 365 in
  let '(m, d) := month_day (doe - year_start yoe) in
  (yoe + (if m <=? 2 then 1 else 0), m, d).

Definition civil_from_days (days : Z) : Z * Z * Z :=
  let z := days + 719468 in
  let '(y, m, d) := civil_of_doe (z mod 146097) in
  (y + z / 146097 * 400, m, d).

Definition digit (d : Z) : ascii := ascii_of_nat (48 + Z.to_nat d).

(** [v] written with [n] decimal digits. *)
Fixpoint pad (n : nat) (v : Z) : string :=
  match n with
  | O => EmptyString
  | S n' => pad n' (v / 10) +:+ String (digit (v mod 10)) EmptyString
  end.

(** The text [YYYY-MM-DD HH:MM:SS], in UTC, of an instant given in seconds
    since the epoch. *)
Definition stamp_text (secs : Z) : string :=
  let '(y, m, d) := civil_from_days (secs / 86400) in
  let sod := secs mod 86400 in
  pad 4 y +:+ "-" +:+ pad 2 m +:+ "-" +:+ pad 2 d +:+ " " +:+
  pad 2 (sod / 3600) +:+ ":" +:+ pad 2 (sod mod 3600 / 60) +:+ ":" +:+
  pad 2 (sod mod 60).

(** The instants from 0000-01-01 00:00:00 to 9999-12-31 23:59:59, for
    which SQLite documents its date functions. *)
Definition in_datetime_range (secs : Z) : bool :=
  (-62167219200 <=? secs) && (secs <=? 253402300799).

(** [datetime(secs, 'unixepoch')] for an integer [secs]: the text of the
    instant from 0000-01-01 to 9999-12-31, and [NULL] ([None]) from
    10000-01-01 on.  Before 0000-01-01 SQLite leaves the result undefined,
    and it is [None] here; a cutoff computed from a Python [datetime], whose
    years start at 1, is never that early. *)
Definition datetime_unixepoch (secs : Z) : option string :=
  if in_datetime_range secs then Some (stamp_text secs) else None.

(** [v >= bound] as a [WHERE] condition, [bound] being the text that
    [datetime] gave or [NULL].  A comparison with [NULL] is not true; a
    number sorts before any text and a blob after any text, whatever the
    affinity of the column, since the text of a date is not a number; two
    texts compare byte by byte. *)
Definition sql_ge_text (v : sql_value) (bound : option string) : bool :=
  match bound with
  | None => false
  | Some b =>
      match v with
      | SqlNull => false
      | SqlInteger _ => false
      | SqlReal => false
      | SqlText s => negb (String.ltb s b)
      | SqlBlob _ => true
      end
  end.

(** Codes used to compare dates: the digits of the date, of the time of
    day and of both. *)
Definition date_code (c : Z * Z * Z) : Z :=
  c.1.1 * 10000 + c.1.2 * 100 + c.2.

Definition clock_code (sod : Z) : Z :=
  sod / 3600 * 10000 + sod mod 3600 / 60 * 100 + sod mod 60.

Definition stamp_code (secs : Z) : Z :=
  date_code (civil_from_days (secs / 86400)) * 1000000
  + clock_code (secs mod 86400).

Definition year_end (yoe : Z) : Z :=
  if yoe =? 399 then 146096 else year_start (yoe + 1) - 1.

Definition year_check (yoe : Z) : bool :=
  (year_days (year_start yoe) / 365 =? yoe) &&
  (year_days (year_end yoe) / 365 =? yoe) &&
  (0 <=? year_start yoe) && (year_start yoe <=? year_end yoe) &&
  (year_end yoe - year_start yoe <=? 365) && (year_end yoe <=? 146096).

Definition doy_code (doy : Z) : Z :=
  let '(m, d) := month_day doy in
  (if m <=? 2 then 10000 else 0) + m * 100 + d.

Definition doy_check (doy : Z) : bool :=
  let '(m, d) := month_day doy in
  (1 <=? m) && (m <=? 12) && (1 <=? d) && (d <=? 31) &&
  ((doy =? 365) || (doy_code doy <? doy_code (doy + 1))).

End Sqlite.

(** ** [faucet_stats.py] *)

Module FaucetStats.
Import Py Sqlite.

(** A row of the [transactions] table as the query selects it. [time] is
    the stored value of the column with its storage class, [success] the
    stored integer flag. *)
Record tx : Type := mk_tx {
  sender : string;
  recipient : string;
  amount : Z;
  time : sql_value;
  type : string;
  success : Z;
  memo : string
}.

(** A stored time for sample rows, in the format of [datetime]. *)
Definition sample_time : sql_value := SqlText "2024-05-01 12:00:00".

(** The three accumulators of [analyze_faucet_transactions]. *)
Record totals : Type := mk_totals {
  distributions : dict string;
  receipts : dict string;
  balance : dict string
}.

Definition no_totals : totals := mk_totals [] [] [].

(** Body of the loop [for tx in transactions] (lines 101-115): a falsy
    [success] skips the record, and the four updates are made when the
    lowered type contains ["faucet"]. *)
Definition analyze_step (st : totals) (t : tx) : totals :=
  if success t =? 0 then st
  else if contains "faucet" (lower (type t)) then
    {| distributions := dict_add (distributions st) (sender t) (amount t);
       receipts := dict_add (receipts st) (recipient t) (amount t);
       balance := dict_add (dict_add (balance st) (sender t) (amount t))
                           (recipient t) (- amount t) |}
  else st.

(** Whether the loop body reaches the four updates for a record. *)
Definition counted (t : tx) : bool :=
  negb (success t =? 0) && contains "faucet" (lower (type t)).

(** The loop and the returned triple, for the records the reader gave. *)
Definition analyze_records (transactions : list tx)
  : dict string * dict string * dict string :=
  let st := foldl analyze_step no_totals transactions in
  (distributions st, receipts st, balance st).

(** [sqlite3] on the file at [TRANSACTIONS_PATH]: [connect] raises, or
    [execute] raises an [sqlite3.Error], or the query runs over the rows of
    the [transactions] table, which stand in the order in which SQLite
    visits them for this query (the query has no [ORDER BY]). *)
Inductive db_file : Type :=
| Unopenable (msg : string)
| Unqueryable (msg : string)
| Transactions (rows : list tx).

Definition TRANSACTIONS_PATH : string := "data/transactions.db".

(** [int((datetime.now() - timedelta(days=7)).timestamp())]: 7 days are
    taken off the reading of the local wall clock, the result is turned
    into an instant by the rules of the local zone, and [int] cuts it to
    whole seconds. *)
Definition twelve_months_ago (now : clock) : Z :=
  Z.quot (timestamp now (wall_now now - 7 * 86400 * 1000000)) 1000000.

(** [WHERE type = 'faucet' AND success = 1 AND
    time >= datetime(?, 'unixepoch')], the parameter being the integer
    [cutoff]: the stored time is compared, as SQLite compares values, with
    the text of the cutoff. *)
Definition where_clause (cutoff : Z) (t : tx) : bool :=
  bool_decide (type t = "faucet"%string) && (success t =? 1) &&
  sql_ge_text (time t) (datetime_unixepoch cutoff).

(** The window in the words of the specification: an instant, in seconds
    since the epoch, lies in the 7 days that end at the instant [now_us] of
    the clock reading, in microseconds. *)
Definition in_last_7_days (now_us : Z) (instant : Z) : Prop :=
  now_us - 7 * 86400 * 1000000 ≤ instant * 1000000 ≤ now_us.

(** [file] is [None] when [os.path.exists] is false. [sqlite3.connect] is
    called before the [try]; [execute] and [fetchall] are inside it. *)
Definition get_transactions_from_sqlite (now : clock) (file : option db_file)
  : io (list tx) :=
  match file with
  | None =>
      _ ← print ("Error: Transactions database not found at " +:+
                 TRANSACTIONS_PATH);
      mret []
  | Some (Unopenable msg) => raise (Sqlite3Error msg)
  | Some (Unqueryable msg) =>
      _ ← print ("Error querying SQLite database: " +:+ msg);
      mret []
  | Some (Transactions rows) =>
      mret (List.filter (where_clause (twelve_months_ago now)) rows)
  end.

Definition analyze_faucet_transactions (now : clock)
    (file : option db_file)
  : io (dict string * dict string * dict string) :=
  transactions ← get_transactions_from_sqlite now file;
  mret (analyze_records transactions).

Section Report.
(** [fmt sats] stands for [f"{sats:,.0f}"], which formats the integer as a
    float; [Py.fmt_int] is that rendering below [2^53]. *)
Variable fmt : Z → string.

Definition header (title : string) : string := nl +:+ title +:+ ":".

Definition line (item : string * Z) : string :=
  "  " +:+ item.1 +:+ ": " +:+ fmt item.2 +:+ " sats".

(** The rows the loop of [format_stats] goes through. *)
Definition report_rows (stats : dict string) : list (string * Z) :=
  sorted_by_value_desc (items stats).

(** The list [result] at the end of [format_stats]. *)
Definition report_lines (stats : dict string) (title : string)
  : list string :=
  header title :: map line (report_rows stats).

Definition format_stats (stats : dict string) (title : string) : string :=
  join nl (report_lines stats title).

Definition main (now : clock) (file : option db_file) : io unit :=
  _ ← print "Fetching faucet statistics...";
  '(distributions, receipts, balance) ←
     analyze_faucet_transactions now file;
  _ ← print (nl +:+ "Faucet Statistics for the Last 7 Days:");
  _ ← print (repeat_str "-" 50);
  _ ← print (format_stats distributions
               "Total Amount Distributed per User of last 7 days");
  _ ← print (format_stats receipts
               "Total Amount Received per User of last 7 days");
  print (format_stats balance
           "Balance of Faucets per User of last 7 days (negative = lurker)").

End Report.

(** A row of the [users] table as [get_user_info_from_sqlite] selects it.
    A column that holds SQL [NULL] is [None]. *)
Record user_row : Type := mk_user_row {
  name : option string;
  telegram_username : option string;
  wallet_id : option string;
  wallet_name : option string;
  wallet_balance : option Z
}.

(** [sqlite3] on the file at [DB_PATH], as [db_file] for the other file. *)
Inductive users_file : Type :=
| UsersUnopenable (msg : string)
| UsersUnqueryable (msg : string)
| Users (rows : list user_row).

Definition DB_PATH : string := "data/bot.db".

(** [WHERE name = ? OR telegram_username = ?], both parameters being
    [user_id]; a [NULL] column equals nothing. *)
Definition user_matches (user_id : string) (row : user_row) : bool :=
  bool_decide (name row = Some user_id) ||
  bool_decide (telegram_username row = Some user_id).

(** [get_user_info_from_sqlite] (lines 57-84).  The query has no
    [ORDER BY]: the rows of [Users rows] stand in the order in which
    SQLite happens to visit them for this query, an order that SQLite does
    not promise and that need not be the order of insertion; [fetchone]
    gives the first row of the result in that order, or [None]. *)
Definition get_user_info_from_sqlite (user_id : string)
    (file : option users_file) : io (option user_row) :=
  match file with
  | None =>
      _ ← print ("Error: User database not found at " +:+ DB_PATH);
      mret None
  | Some (UsersUnopenable msg) => raise (Sqlite3Error msg)
  | Some (UsersUnqueryable msg) =>
      _ ← print ("Error querying SQLite database: " +:+ msg);
      mret None
  | Some (Users rows) => mret (head (List.filter (user_matches user_id) rows))
  end.

(** What one record adds to the total of user [u] on the side given by
    [key] ([sender] or [recipient]), and the total over a list. *)
Definition contribution (key : tx → string) (u : string) (t : tx) : Z :=
  if counted t && bool_decide (key t = u) then amount t else 0.

Definition total_of (key : tx → string) (u : string)
    (transactions : list tx) : Z :=
  sum (map (contribution key u) transactions).

End FaucetStats.

(** ** [get_faucet_stats.py] *)

Module GetFaucetStats.
Import Py.

Record user : Type := mk_user { user_id : string }.

Record wallet : Type := mk_wallet {
  id : string;
  name : string;
  adminkey : string
}.

(** The value under the key ["memo"] of a payment: a string, or a value
    without a method [lower] (the JSON [null], a number, ...). *)
Inductive memo_value : Type :=
| MemoText (s : string)
| MemoOther.

(** A payment of the LNbits API. [memo] and [out] are read with
    [payment.get] and are [None] when the key is absent; [time] is in
    seconds since the epoch. *)
Record payment : Type := mk_payment {
  memo : option memo_value;
  time : Z;
  amount : Z;
  out : option bool
}.

(** What [requests.get] returns when it returns: [json] is the outcome of
    [response.json()]. *)
Record response (A : Type) : Type := mk_response {
  status_code : Z;
  text : string;
  json : result A
}.
Arguments mk_response {A} _ _ _.
Arguments status_code {A} _.
Arguments text {A} _.
Arguments json {A} _.

(** The three fetchers.  [reply] is the outcome of the call of
    [requests.get], which is not inside any [try]. *)
Definition get_users (reply : result (response (list user)))
  : io (list user) :=
  response ← lift reply;
  if negb (status_code response =? 200) then
    _ ← print ("Error getting users: " +:+ text response);
    mret []
  else lift (json response).

Definition get_user_wallets (user_id : string)
    (reply : result (response (list wallet))) : io (list wallet) :=
  response ← lift reply;
  if negb (status_code response =? 200) then
    _ ← print ("Error getting wallets for user " +:+ user_id +:+ ": " +:+
               text response);
    mret []
  else lift (json response).

Definition get_wallet_transactions (wallet : wallet)
    (reply : result (response (list payment))) : io (list payment) :=
  response ← lift reply;
  if negb (status_code response =? 200) then
    _ ← print ("Error getting transactions for wallet " +:+ id wallet +:+
               ": " +:+ text response);
    mret []
  else lift (json response).

(** [get_telegram_username]: the annotation is [Optional[str]], so the
    value is an optional string; the index [[1]] raises on a short list. *)
Definition get_telegram_username (wallet_name : string)
  : result (option string) :=
  if contains "(@" wallet_name && contains ")" wallet_name then
    match split "(@" wallet_name !! 1%nat with
    | Some piece => Ok (Some (strip ")" piece))
    | None => Raise IndexError
    end
  else Ok (Some wallet_name).

(** [datetime.now() - timedelta(days=365)]: a reading of the local wall
    clock. *)
Definition twelve_months_ago (now : clock) : Z :=
  wall_now now - 365 * 86400 * 1000000.

(** [payment.get("memo", "").lower()] *)
Definition memo_lower (payment : payment) : result string :=
  match memo payment with
  | None => Ok (lower "")
  | Some (MemoText s) => Ok (lower s)
  | Some MemoOther =>
      Raise (AttributeError "object has no attribute 'lower'")
  end.

(** Body of the loop over the payments of one wallet (lines 72-87): the
    memo is tested first, then [datetime.fromtimestamp(payment["time"])]
    is compared, as a reading of the local wall clock, with the reading of
    a year ago; either call can raise, before any update. *)
Definition payment_body (now : clock) (username : option string)
    (st : dict (option string) * dict (option string)) (payment : payment)
  : result (dict (option string) * dict (option string)) :=
  match memo_lower payment with
  | Raise e => Raise e
  | Ok lowered =>
      if negb (contains "faucet" lowered) then Ok st
      else
        match fromtimestamp now (time payment) with
        | Raise e => Raise e
        | Ok payment_time =>
            if payment_time <? twelve_months_ago now then Ok st
            else if default false (out payment)
                 then Ok (dict_add st.1 username (amount payment), st.2)
                 else Ok (st.1, dict_add st.2 username (amount payment))
        end
  end.

(** The exception that the body raises on a payment, if any. *)
Definition payment_raises (now : clock) (payment : payment) : option exn :=
  match payment_body now None ([], []) payment with
  | Raise e => Some e
  | Ok _ => None
  end.

(** Whether the loop over the payments reaches an update for a payment:
    the memo names the faucet and the payment is not older than a year. *)
Definition counted (now : clock) (payment : payment) : bool :=
  match memo_lower payment with
  | Raise _ => false
  | Ok lowered =>
      contains "faucet" lowered &&
      match fromtimestamp now (time payment) with
      | Raise _ => false
      | Ok payment_time => negb (payment_time <? twelve_months_ago now)
      end
  end.

(** The two mappings after the body ran on one payment; when the body
    raises, no update has been made. *)
Definition payment_step (now : clock) (username : option string)
    (st : dict (option string) * dict (option string)) (payment : payment)
  : dict (option string) * dict (option string) :=
  match payment_body now username st payment with
  | Ok st' => st'
  | Raise _ => st
  end.

(** The loop over the payments of one wallet; an exception ends it. *)
Fixpoint payments_loop (now : clock) (username : option string)
    (st : dict (option string) * dict (option string))
    (payments : list payment)
  : result (dict (option string) * dict (option string)) :=
  match payments with
  | [] => Ok st
  | payment :: payments' =>
      match payment_body now username st payment with
      | Raise e => Raise e
      | Ok st' => payments_loop now username st' payments'
      end
  end.

(** The two accumulators before the loops. *)
Definition no_totals : dict (option string) * dict (option string) :=
  ([], []).

(** Body of the loop over [all_wallets.items()]. *)
Definition wallet_step (now : clock)
    (all_transactions : list (string * list payment))
    (st : result (dict (option string) * dict (option string)))
    (entry : string * wallet)
  : result (dict (option string) * dict (option string)) :=
  match st with
  | Raise e => Raise e
  | Ok st =>
      match get_telegram_username (name entry.2) with
      | Raise e => Raise e
      | Ok username =>
          payments_loop now username st
            (store_get all_transactions entry.1 [])
      end
  end.

Definition analyze_faucet_transactions (now : clock)
    (all_transactions : list (string * list payment))
    (all_wallets : list (string * wallet))
  : result (dict (option string) * dict (option string)) :=
  foldl (wallet_step now all_transactions) (Ok no_totals) all_wallets.

Section Report.
(** [fmt amount] stands for [f"{amount / 1000:,.0f}"], the float quotient
    rendered without decimals; [Py.fmt_msat] is that rendering below
    [10^15]. *)
Variable fmt : Z → string.

Definition header (title : string) : string := nl +:+ title +:+ ":".

(** [f"{username}"] prints [None] for an absent value. *)
Definition line (item : option string * Z) : string :=
  "  " +:+ default "None"%string item.1 +:+ ": " +:+ fmt item.2 +:+ " sats".

Definition report_rows (stats : dict (option string))
  : list (option string * Z) :=
  sorted_by_value_desc (items stats).

Definition report_lines (stats : dict (option string)) (title : string)
  : list string :=
  header title :: map line (report_rows stats).

Definition format_stats (stats : dict (option string)) (title : string)
  : string :=
  join nl (report_lines stats title).

(** The LNbits instance as [main] sees it: the reply to the users request,
    to the wallets request of a user id, and to the payments request made
    with a wallet's admin key. *)
Record lnbits : Type := mk_lnbits {
  users_api : result (response (list user));
  wallets_api : string → result (response (list wallet));
  payments_api : string → result (response (list payment))
}.

Definition collect_wallet (api : lnbits)
    (st : list (string * wallet) * list (string * list payment))
    (w : wallet)
  : io (list (string * wallet) * list (string * list payment)) :=
  let all_wallets := store_set st.1 (id w) w in
  transactions ← get_wallet_transactions w (payments_api api (adminkey w));
  mret (all_wallets, store_set st.2 (id w) transactions).

Definition collect_user (api : lnbits)
    (st : list (string * wallet) * list (string * list payment))
    (u : user)
  : io (list (string * wallet) * list (string * list payment)) :=
  wallets ← get_user_wallets (user_id u) (wallets_api api (user_id u));
  for_each (collect_wallet api) wallets st.

Definition main (now : clock) (api : lnbits) : io unit :=
  _ ← print "Fetching faucet statistics from LNbits...";
  users ← get_users (users_api api);
  match users with
  | [] => print "No users found!"
  | _ =>
      '(all_wallets, all_transactions) ←
         for_each (collect_user api) users ([], []);
      '(distributions, receipts) ←
         lift (analyze_faucet_transactions now all_transactions all_wallets);
      _ ← print (nl +:+ "Faucet Statistics for the Last 12 Months:");
      _ ← print (repeat_str "-" 50);
      _ ← print (format_stats distributions
                   "Total Amount Distributed per User");
      print (format_stats receipts "Total Amount Received per User")
  end.

End Report.

(** A wallet and the payments stored beside it by [main]: same key, the
    key is the id of the wallet, and the payments are what the fetcher
    returned for this wallet. *)
Definition paired (api : lnbits) (e1 : string * wallet)
    (e2 : string * list payment) : Prop :=
  e1.1 = e2.1 ∧ id e1.2 = e1.1 ∧
  ∃ o, get_wallet_transactions e1.2 (payments_api api (adminkey e1.2))
       = (o, Ok e2.2).

Definition stores_ok (api : lnbits)
    (st : list (string * wallet) * list (string * list payment)) : Prop :=
  Forall2 (paired api) st.1 st.2 ∧ NoDup (map fst st.1).

(** The user name under which the payments of a wallet are counted. *)
Definition username_of (w : wallet) : option string :=
  match get_telegram_username (name w) with
  | Ok username => username
  | Raise _ => None
  end.

(** The payments the loops of [analyze_faucet_transactions] go through,
    each with the user name of its wallet, in the order of the loops. *)
Definition tagged_payments
    (all_transactions : list (string * list payment))
    (all_wallets : list (string * wallet))
  : list (option string * payment) :=
  flat_map (λ entry : string * wallet,
              map (pair (username_of entry.2))
                  (store_get all_transactions entry.1 []))
           all_wallets.

(** The exception of the first payment, in the order of the loops, on
    which the body raises. *)
Fixpoint first_error (now : clock) (payments : list payment) : option exn :=
  match payments with
  | [] => None
  | payment :: payments' =>
      match payment_raises now payment with
      | Some e => Some e
      | None => first_error now payments'
      end
  end.

(** What one payment adds to the total of user [u], on the outgoing side
    ([outgoing = true]) or on the incoming side. *)
Definition contribution (now : clock) (outgoing : bool)
    (u : option string)
    (tagged : option string * payment) : Z :=
  if counted now tagged.2 &&
     bool_decide (default false (out tagged.2) = outgoing) &&
     bool_decide (tagged.1 = u)
  then amount tagged.2 else 0.

End GetFaucetStats.


(** ** The built-ins on sample values *)

Module PyExamples.
Import Py.

Example split_one_marker :
  split "(@" "123456789 (@username)" = ["123456789 "; "username)"]%string.
Proof. reflexivity. Qed.

Example split_marker_at_end : split "(@" "a(@" = ["a"; ""]%string.
Proof. reflexivity. Qed.

Example split_no_marker : split "(@" "alice" = ["alice"]%string.
Proof. reflexivity. Qed.

Example strip_both_ends : strip ")" "))a)b))" = "a)b"%string.
Proof. reflexivity. Qed.

Example lower_mixed : lower "FauCet-Z@[" = "faucet-z@["%string.
Proof. reflexivity. Qed.

Example contains_faucet : contains "faucet" (lower "Faucet drip") = true.
Proof. reflexivity. Qed.

Example fmt_int_samples :
  map fmt_int [0; 5; 999; 1000; -1234; 1000000; 12345678]
  = ["0"; "5"; "999"; "1,000"; "-1,234"; "1,000,000"; "12,345,678"]%string.
Proof. reflexivity. Qed.

Example sorted_keeps_ties :
  sorted_by_value_desc [("a", 1); ("b", 3); ("c", 1); ("d", 3)]%string
  = [("b", 3); ("d", 3); ("a", 1); ("c", 1)]%string.
Proof. reflexivity. Qed.

Example username_of_wallet_name :
  GetFaucetStats.get_telegram_username "123456789 (@username)"
  = Ok (Some "username"%string).
Proof. reflexivity. Qed.

Example fmt_msat_samples :
  map fmt_msat [0; 499; 500; 700; 1500; 2500; -400; 1234567]
  = ["0"; "0"; "0"; "1"; "2"; "2"; "-0"; "1,235"]%string.
Proof. vm_compute. reflexivity. Qed.

Example datetime_samples :
  map Sqlite.datetime_unixepoch [0; 1700000000; -1; 951782400; 253402300800]
  = [ Some "1970-01-01 00:00:00"; Some "2023-11-14 22:13:20";
      Some "1969-12-31 23:59:59"; Some "2000-02-29 00:00:00"; None ]%string.
Proof. vm_compute. reflexivity. Qed.

Example number_is_below_text :
  map (λ v, Sqlite.sql_ge_text v (Some "2023-11-07 22:13:20"%string))
    [ Sqlite.SqlInteger 1700000000; Sqlite.SqlNull;
      Sqlite.SqlText "2023-11-07 22:13:20";
      Sqlite.SqlText "2023-11-07 22:13:19";
      Sqlite.SqlText "2023-11-07T22:13:19Z";
      Sqlite.SqlText "2023-11-07 23:13:20+01:00" ]
  = [false; false; true; false; true; true].
Proof. vm_compute. reflexivity. Qed.

Example null_memo_raises :
  GetFaucetStats.analyze_faucet_transactions (utc_clock 1700000000000000)
    [("w1", [GetFaucetStats.mk_payment (Some GetFaucetStats.MemoOther)
               1699990000 700 None])]%string
    [("w1", GetFaucetStats.mk_wallet "w1" "alice" "k1")]%string
  = Raise (AttributeError "object has no attribute 'lower'").
Proof. vm_compute. reflexivity. Qed.

Example report_of_two_users :
  FaucetStats.format_stats fmt_int [("A", 100); ("B", 50000)]%string "Total"
  = (nl +:+ "Total:" +:+ nl +:+ "  B: 50,000 sats" +:+ nl +:+
     "  A: 100 sats")%string.
Proof. reflexivity. Qed.

End PyExamples.

(** ** Facts about the built-ins *)

Module PyFacts.
Import Py.

Lemma foldl_add_acc (a : Z) (l : list Z) :
  foldl Z.add a l = a + foldl Z.add 0 l.
Proof.
  revert a. induction l as [|x l IH]; intros a; simpl.
  - lia.
  - rewrite (IH (a + x)), (IH (0 + x)). lia.
Qed.

Lemma sum_nil : sum [] = 0.
Proof. reflexivity. Qed.

Lemma sum_cons (x : Z) (l : list Z) : sum (x :: l) = x + sum l.
Proof. unfold sum. simpl. rewrite foldl_add_acc. lia. Qed.

(** *** Strings *)

Lemma app_empty_l (s : string) : "" +:+ s = s.
Proof. reflexivity. Qed.

Lemma app_cons (c : ascii) (s1 s2 : string) :
  String c s1 +:+ s2 = String c (s1 +:+ s2).
Proof. reflexivity. Qed.

Lemma app_empty_r (s : string) : s +:+ "" = s.
Proof.
  induction s as [|c s IH]; [done|]. by rewrite app_cons, IH.
Qed.

Lemma app_assoc_str (s1 s2 s3 : string) :
  (s1 +:+ s2) +:+ s3 = s1 +:+ (s2 +:+ s3).
Proof.
  induction s1 as [|c s1 IH]; [done|]. by rewrite !app_cons, IH.
Qed.

Lemma prefix_empty_r (sep : string) :
  sep ≠ EmptyString → String.prefix sep "" = false.
Proof. by destruct sep. Qed.

Lemma contains_cons (sep : string) (c : ascii) (s : string) :
  contains sep (String c s)
  = String.prefix sep (String c s) || contains sep s.
Proof. reflexivity. Qed.

Lemma contains_empty (sep : string) :
  contains sep "" = String.prefix sep "".
Proof. simpl. apply orb_false_r. Qed.

Lemma text_before_cons (sep : string) (c : ascii) (s : string) :
  text_before sep (String c s)
  = if String.prefix sep (String c s) then EmptyString
    else String c (text_before sep s).
Proof. reflexivity. Qed.

Lemma text_after_cons (sep : string) (c : ascii) (s : string) :
  text_after sep (String c s)
  = if String.prefix sep (String c s)
    then drop_chars (String.length sep) (String c s)
    else text_after sep s.
Proof. reflexivity. Qed.

Lemma contains_cons_no_prefix (sep : string) (c : ascii) (s : string) :
  String.prefix sep (String c s) = false →
  contains sep (String c s) = contains sep s.
Proof. intros Hp. by rewrite contains_cons, Hp. Qed.

Lemma contains_prefix (sep s : string) :
  String.prefix sep s = true → contains sep s = true.
Proof.
  intros Hp. destruct s.
  - by rewrite contains_empty.
  - by rewrite contains_cons, Hp.
Qed.

(** Without an occurrence, the text before the first one is everything. *)
Lemma text_before_absent (sep s : string) :
  contains sep s = false → text_before sep s = s.
Proof.
  induction s as [|c s IH]; intros Hc.
  - rewrite contains_empty in Hc. unfold text_before. by rewrite Hc.
  - rewrite contains_cons in Hc. apply orb_false_iff in Hc as [Hp Hc].
    rewrite text_before_cons, Hp. by rewrite IH.
Qed.

(** With an occurrence, the string is the text before it, the separator
    and the text after it. *)
Lemma prefix_drop_chars (sep s : string) :
  String.prefix sep s = true →
  s = sep +:+ drop_chars (String.length sep) s.
Proof.
  revert s. induction sep as [|a sep IH]; intros s Hp; [done|].
  destruct s as [|b s]; [done|]. simpl in Hp.
  destruct (ascii_dec a b) as [->|]; [|done].
  rewrite app_cons. simpl. f_equal. by apply IH.
Qed.

Lemma text_before_after (sep s : string) :
  contains sep s = true →
  s = text_before sep s +:+ sep +:+ text_after sep s.
Proof.
  induction s as [|c s IH]; intros Hc.
  - rewrite contains_empty in Hc. unfold text_before, text_after.
    rewrite Hc, app_empty_l. by apply prefix_drop_chars.
  - rewrite text_before_cons, text_after_cons.
    destruct (String.prefix sep (String c s)) eqn:Hp.
    + rewrite app_empty_l. by apply prefix_drop_chars.
    + rewrite contains_cons_no_prefix in Hc by done.
      rewrite app_cons. f_equal. by apply IH.
Qed.

(** No occurrence of the separator starts inside the text before it. *)
Lemma text_before_first (sep s : string) (i : nat) :
  (i < String.length (text_before sep s))%nat →
  String.prefix sep (drop_chars i s) = false.
Proof.
  revert i. induction s as [|c s IH]; intros i Hi.
  - unfold text_before in Hi.
    destruct (String.prefix sep ""); simpl in Hi; lia.
  - rewrite text_before_cons in Hi.
    destruct (String.prefix sep (String c s)) eqn:Hp; simpl in Hi; [lia|].
    destruct i as [|i]; [done|]. simpl. apply IH. lia.
Qed.

(** *** [split] *)

Lemma split_from_skip (sep : string) (k : nat) (cur s : string) :
  split_from sep k cur s = split_from sep O cur (drop_chars k s).
Proof.
  revert k. induction s as [|c s IH]; intros k.
  - by destruct k.
  - destruct k as [|k]; [done|]. simpl. apply IH.
Qed.

Lemma split_from_cons (sep : string) (cur : string) (c : ascii)
    (s : string) :
  split_from sep O cur (String c s)
  = if String.prefix sep (String c s)
    then cur :: split_from sep (String.length sep - 1) EmptyString s
    else split_from sep O (cur +:+ String c EmptyString) s.
Proof. reflexivity. Qed.

Lemma split_from_unfold (sep : string) (cur s : string) :
  sep ≠ EmptyString →
  split_from sep O cur s =
    if contains sep s
    then (cur +:+ text_before sep s)
         :: split_from sep O EmptyString (text_after sep s)
    else [cur +:+ s].
Proof.
  intros Hsep. revert cur. induction s as [|c s IH]; intros cur.
  - rewrite contains_empty, prefix_empty_r by done.
    by rewrite app_empty_r.
  - rewrite split_from_cons, text_before_cons, text_after_cons.
    destruct (String.prefix sep (String c s)) eqn:Hp.
    + rewrite contains_prefix by done.
      rewrite app_empty_r, split_from_skip. do 2 f_equal.
      destruct sep as [|a sep]; [done|]. simpl.
      by rewrite Nat.sub_0_r.
    + rewrite contains_cons_no_prefix by done.
      rewrite IH. destruct (contains sep s).
      * by rewrite app_assoc_str.
      * by rewrite app_assoc_str.
Qed.

(** The second piece of a split, when the separator occurs. *)
Lemma split_second (sep s : string) :
  sep ≠ EmptyString →
  contains sep s = true →
  split sep s !! 1%nat = Some (text_before sep (text_after sep s)).
Proof.
  intros Hsep Hc. unfold split.
  rewrite split_from_unfold, Hc by done. simpl.
  rewrite split_from_unfold by done.
  destruct (contains sep (text_after sep s)) eqn:Hc'; simpl.
  - done.
  - by rewrite text_before_absent.
Qed.

Section DictFacts.
Context {K : Type} `{EqDecision K}.
Implicit Types (d : dict K) (k u : K) (a : Z).

Lemma sum_values_dict_add d k a :
  sum (values (dict_add d k a)) = sum (values d) + a.
Proof.
  induction d as [|[k' v] d IH]; simpl.
  - rewrite sum_cons, !sum_nil. lia.
  - destruct (decide (k' = k)); unfold values in *; simpl;
      rewrite !sum_cons; [lia | rewrite IH; lia].
Qed.

Lemma dict_get_dict_add d k a u :
  dict_get (dict_add d k a) u
  = dict_get d u + (if decide (k = u) then a else 0).
Proof.
  induction d as [|[k' v] d IH]; simpl.
  - destruct (decide (k = u)); lia.
  - destruct (decide (k' = k)) as [->|Hne]; simpl.
    + destruct (decide (k = u)); lia.
    + destruct (decide (k' = u)) as [->|Hne'].
      * rewrite decide_False by congruence. lia.
      * apply IH.
Qed.

Lemma dict_add_not_nil d k a : dict_add d k a ≠ [].
Proof.
  destruct d as [|[k' v] d]; simpl; [done|].
  destruct (decide (k' = k)); done.
Qed.

Lemma elem_of_keys_dict_add d k a u :
  u ∈ keys (dict_add d k a) ↔ u = k ∨ u ∈ keys d.
Proof.
  unfold keys. induction d as [|[k' v] d IH]; simpl.
  - rewrite list_elem_of_singleton, elem_of_nil. tauto.
  - destruct (decide (k' = k)) as [->|Hne]; simpl.
    + rewrite !elem_of_cons. tauto.
    + rewrite !elem_of_cons, IH. tauto.
Qed.

(** Each key stays held once. *)
Lemma NoDup_keys_dict_add d k a :
  NoDup (keys d) → NoDup (keys (dict_add d k a)).
Proof.
  unfold keys. induction d as [|[k' v] d IH]; simpl; intros Hnd.
  - apply NoDup_singleton.
  - apply NoDup_cons in Hnd as [Hnotin Hnd].
    destruct (decide (k' = k)) as [->|Hne]; simpl.
    + by apply NoDup_cons.
    + apply NoDup_cons. split; [|by apply IH].
      intros Hin. apply (elem_of_keys_dict_add d k a k') in Hin.
      destruct Hin as [->|Hin]; [done|]. by apply Hnotin.
Qed.

End DictFacts.

Lemma key_set_dict_add `{Countable K} (d : dict K) (k : K) (a : Z) :
  key_set (dict_add d k a) = {[k]} ∪ key_set d.
Proof.
  apply set_eq. intros u. unfold key_set.
  rewrite elem_of_union, elem_of_singleton, !elem_of_list_to_set.
  apply elem_of_keys_dict_add.
Qed.

(** *** [sorted] by value, descending *)

Section SortFacts.
Context {K : Type}.
Implicit Types (x y : K * Z) (l : list (K * Z)).

Lemma insert_desc_Permutation x l : insert_desc x l ≡ₚ x :: l.
Proof.
  induction l as [|y l IH]; simpl; [done|].
  destruct (x.2 <? y.2); [|done].
  rewrite IH. apply Permutation_swap.
Qed.

Lemma sorted_by_value_desc_Permutation l : sorted_by_value_desc l ≡ₚ l.
Proof.
  induction l as [|x l IH]; simpl; [done|].
  by rewrite insert_desc_Permutation, IH.
Qed.

Lemma insert_desc_sorted x l :
  StronglySorted value_ge l → StronglySorted value_ge (insert_desc x l).
Proof.
  induction 1 as [|y l Hl IH Hy]; simpl.
  - repeat constructor.
  - destruct (Z.ltb_spec x.2 y.2) as [Hlt|Hge].
    + constructor; [done|].
      rewrite insert_desc_Permutation. constructor; [|done].
      unfold value_ge. lia.
    + constructor; [by constructor|].
      constructor; [done|].
      eapply Forall_impl; [exact Hy|]. unfold value_ge. intros z. lia.
Qed.

Lemma sorted_by_value_desc_sorted l :
  StronglySorted value_ge (sorted_by_value_desc l).
Proof.
  induction l as [|x l IH]; simpl; [constructor|].
  by apply insert_desc_sorted.
Qed.

(** Stability: the items of one value keep their order. *)
Lemma insert_desc_stable (v : Z) x l :
  filter (λ y, y.2 = v) (insert_desc x l) = filter (λ y, y.2 = v) (x :: l).
Proof.
  induction l as [|y l IH]; simpl; [done|].
  destruct (Z.ltb_spec x.2 y.2) as [Hlt|Hge]; [|done].
  rewrite (filter_cons _ y), IH, !(filter_cons _ x), (filter_cons _ y).
  destruct (decide (x.2 = v)), (decide (y.2 = v)); try done. lia.
Qed.

Lemma sorted_by_value_desc_stable (v : Z) l :
  filter (λ y, y.2 = v) (sorted_by_value_desc l) = filter (λ y, y.2 = v) l.
Proof.
  induction l as [|x l IH]; simpl; [done|].
  by rewrite insert_desc_stable, !filter_cons, IH.
Qed.

End SortFacts.

End PyFacts.

(** ** Facts about [datetime] texts *)

Module SqliteFacts.
Import Py PyFacts Sqlite.

(** *** A day of the cycle lies inside its year *)

Lemma range_check (check : Z → bool) (n : nat) (i : Z) :
  forallb check (map Z.of_nat (seq 0 n)) = true →
  0 ≤ i < Z.of_nat n → check i = true.
Proof.
  intros Hall Hi. rewrite forallb_forall in Hall. apply Hall.
  apply in_map_iff. exists (Z.to_nat i). split; [lia|].
  apply in_seq. lia.
Qed.

Lemma all_years : forallb year_check (map Z.of_nat (seq 0 400)) = true.
Proof. vm_compute. reflexivity. Qed.

Lemma all_doys : forallb doy_check (map Z.of_nat (seq 0 366)) = true.
Proof. vm_compute. reflexivity. Qed.

Lemma year_days_step doe :
  0 ≤ doe < 146096 → year_days doe ≤ year_days (doe + 1).
Proof. intros H. unfold year_days. Z.div_mod_to_equations. lia. Qed.

Lemma mono_from_step (f : Z → Z) (lo hi : Z) :
  (∀ i, lo ≤ i < hi → f i ≤ f (i + 1)) →
  ∀ a b, lo ≤ a → a ≤ b → b ≤ hi → f a ≤ f b.
Proof.
  intros Hstep a b Ha Hab Hb.
  assert (∀ n : nat, a + Z.of_nat n ≤ hi → f a ≤ f (a + Z.of_nat n)) as H.
  { induction n as [|n IH]; intros Hn.
    - rewrite Z.add_0_r. lia.
    - replace (a + Z.of_nat (S n)) with (a + Z.of_nat n + 1) by lia.
      specialize (IH ltac:(lia)).
      pose proof (Hstep (a + Z.of_nat n) ltac:(lia)). lia. }
  specialize (H (Z.to_nat (b - a))). rewrite Z2Nat.id in H by lia.
  replace (a + (b - a)) with b in H by lia. apply H. lia.
Qed.

Lemma strict_mono_from_step (f : Z → Z) (lo hi : Z) :
  (∀ i, lo ≤ i < hi → f i < f (i + 1)) →
  ∀ a b, lo ≤ a → a < b → b ≤ hi → f a < f b.
Proof.
  intros Hstep a b Ha Hab Hb.
  pose proof (Hstep a ltac:(lia)) as H1.
  pose proof (mono_from_step f lo hi
    (λ i Hi, Z.lt_le_incl _ _ (Hstep i Hi)) (a + 1) b ltac:(lia) ltac:(lia) Hb).
  lia.
Qed.

Lemma yoe_mono a b :
  0 ≤ a → a ≤ b → b ≤ 146096 → year_days a / 365 ≤ year_days b / 365.
Proof.
  intros Ha Hab Hb. apply Z.div_le_mono; [lia|].
  by apply (mono_from_step year_days 0 146096 year_days_step).
Qed.

Lemma year_check_spec yoe :
  0 ≤ yoe ≤ 399 →
  year_days (year_start yoe) / 365 = yoe ∧
  year_days (year_end yoe) / 365 = yoe ∧
  0 ≤ year_start yoe ∧ year_start yoe ≤ year_end yoe ∧
  year_end yoe - year_start yoe ≤ 365 ∧ year_end yoe ≤ 146096.
Proof.
  intros Hy. pose proof (range_check year_check 400 yoe all_years ltac:(lia)) as H.
  unfold year_check in H. rewrite !andb_true_iff in H.
  destruct H as (((((H1 & H2) & H3) & H4) & H5) & H6).
  apply Z.eqb_eq in H1, H2. apply Z.leb_le in H3, H4, H5, H6. done.
Qed.

Lemma doe_in_year doe :
  0 ≤ doe ≤ 146096 →
  0 ≤ year_days doe / 365 ≤ 399 ∧
  0 ≤ doe - year_start (year_days doe / 365) ≤ 365.
Proof.
  intros Hdoe. set (y := year_days doe / 365).
  assert (0 ≤ y ≤ 399) as Hy.
  { pose proof (yoe_mono 0 doe ltac:(lia) ltac:(lia) ltac:(lia)) as H0.
    pose proof (yoe_mono doe 146096 ltac:(lia) ltac:(lia) ltac:(lia)) as H1.
    change (year_days 0 / 365) with 0 in H0.
    change (year_days 146096 / 365) with 399 in H1. subst y. lia. }
  split; [done|].
  destruct (year_check_spec y Hy) as (Hs & He & H0 & Hse & Hlen & Hmax).
  assert (year_start y ≤ doe) as Hlo.
  { destruct (Z_lt_le_dec doe (year_start y)) as [Hlt|]; [|done].
    assert (1 ≤ y) as Hy1.
    { destruct (decide (y = 0)) as [Hy0|]; [|lia].
      rewrite Hy0 in Hlt. change (year_start 0) with 0 in Hlt. lia. }
    destruct (year_check_spec (y - 1) ltac:(lia)) as (_ & He' & _).
    assert (year_end (y - 1) = year_start y - 1) as Hend.
    { unfold year_end. destruct (Z.eqb_spec (y - 1) 399); [lia|].
      by replace (y - 1 + 1) with y by lia. }
    rewrite Hend in He'.
    pose proof (yoe_mono doe (year_start y - 1) ltac:(lia) ltac:(lia) ltac:(lia)).
    subst y. lia. }
  assert (doe ≤ year_end y) as Hhi.
  { destruct (Z_lt_le_dec (year_end y) doe) as [Hlt|]; [|lia].
    assert (y < 399) as Hy1.
    { destruct (decide (y = 399)) as [Hy0|]; [|lia].
      rewrite Hy0 in Hlt. change (year_end 399) with 146096 in Hlt. lia. }
    destruct (year_check_spec (y + 1) ltac:(lia)) as (Hs' & _ & H0' & Hse' & _ & Hmax').
    assert (year_end y = year_start (y + 1) - 1) as Hend.
    { unfold year_end. destruct (Z.eqb_spec y 399); [lia|done]. }
    pose proof (yoe_mono (year_start (y + 1)) doe ltac:(lia) ltac:(lia) ltac:(lia)).
    subst y. lia. }
  lia.
Qed.

Lemma doy_check_spec doy :
  0 ≤ doy ≤ 365 →
  1 ≤ (month_day doy).1 ≤ 12 ∧ 1 ≤ (month_day doy).2 ≤ 31 ∧
  (doy < 365 → doy_code doy < doy_code (doy + 1)).
Proof.
  intros Hd. pose proof (range_check doy_check 366 doy all_doys ltac:(lia)) as H.
  unfold doy_check in H. destruct (month_day doy) as [m d]. simpl.
  rewrite !andb_true_iff, orb_true_iff in H.
  destruct H as ((((H1 & H2) & H3) & H4) & H5).
  apply Z.leb_le in H1, H2, H3, H4.
  repeat split; try done. intros Hlt.
  destruct H5 as [H5|H5]; [apply Z.eqb_eq in H5; lia|by apply Z.ltb_lt in H5].
Qed.

Lemma doy_code_mono a b : 0 ≤ a → a < b → b ≤ 365 → doy_code a < doy_code b.
Proof.
  apply (strict_mono_from_step doy_code 0 365).
  intros i Hi. apply doy_check_spec; lia.
Qed.

Lemma doy_code_bounds doy : 0 ≤ doy ≤ 365 → 301 ≤ doy_code doy ≤ 10229.
Proof.
  intros Hd.
  assert (doy_code 0 = 301) as H0 by reflexivity.
  assert (doy_code 365 = 10229) as H1 by reflexivity.
  destruct (decide (doy = 0)) as [->|]; [lia|].
  destruct (decide (doy = 365)) as [->|]; [lia|].
  pose proof (doy_code_mono 0 doy ltac:(lia) ltac:(lia) ltac:(lia)).
  pose proof (doy_code_mono doy 365 ltac:(lia) ltac:(lia) ltac:(lia)).
  lia.
Qed.

Lemma date_code_of_doe doe :
  date_code (civil_of_doe doe)
  = year_days doe / 365 * 10000
    + doy_code (doe - year_start (year_days doe / 365)).
Proof.
  unfold civil_of_doe, doy_code, date_code.
  destruct (month_day (doe - year_start (year_days doe / 365))) as [m d].
  simpl. destruct (m <=? 2); lia.
Qed.

Lemma civil_of_doe_ranges doe :
  0 ≤ doe ≤ 146096 →
  let '(y, m, d) := civil_of_doe doe in
  0 ≤ y ≤ 400 ∧ 1 ≤ m ≤ 12 ∧ 1 ≤ d ≤ 31.
Proof.
  intros Hdoe. destruct (doe_in_year doe Hdoe) as [Hy Hdoy].
  destruct (doy_check_spec _ Hdoy) as (Hm & Hd & _).
  unfold civil_of_doe.
  destruct (month_day (doe - year_start (year_days doe / 365))) as [m d].
  simpl in *. destruct (m <=? 2); lia.
Qed.

Lemma era_mono a b :
  0 ≤ a → a < b → b ≤ 146096 →
  date_code (civil_of_doe a) < date_code (civil_of_doe b).
Proof.
  intros Ha Hab Hb. rewrite !date_code_of_doe.
  destruct (doe_in_year a ltac:(lia)) as [Hya Hda].
  destruct (doe_in_year b ltac:(lia)) as [Hyb Hdb].
  pose proof (yoe_mono a b Ha ltac:(lia) Hb) as Hy.
  destruct (decide (year_days a / 365 = year_days b / 365)) as [Heq|Hne].
  - rewrite Heq in *.
    pose proof (doy_code_mono (a - year_start (year_days b / 365))
                  (b - year_start (year_days b / 365))
                  ltac:(lia) ltac:(lia) ltac:(lia)). lia.
  - pose proof (doy_code_bounds _ Hda). pose proof (doy_code_bounds _ Hdb). lia.
Qed.

Lemma era_code_bounds doe :
  0 ≤ doe ≤ 146096 → 301 ≤ date_code (civil_of_doe doe) ≤ 4000229.
Proof.
  intros Hd.
  assert (date_code (civil_of_doe 0) = 301) as H0 by reflexivity.
  assert (date_code (civil_of_doe 146096) = 4000229) as H1 by reflexivity.
  destruct (decide (doe = 0)) as [->|]; [lia|].
  destruct (decide (doe = 146096)) as [->|]; [lia|].
  pose proof (era_mono 0 doe ltac:(lia) ltac:(lia) ltac:(lia)).
  pose proof (era_mono doe 146096 ltac:(lia) ltac:(lia) ltac:(lia)).
  lia.
Qed.

Lemma date_code_from_days days :
  date_code (civil_from_days days)
  = date_code (civil_of_doe ((days + 719468) mod 146097))
    + (days + 719468) / 146097 * 4000000.
Proof.
  unfold civil_from_days.
  destruct (civil_of_doe ((days + 719468) mod 146097)) as [[y m] d].
  unfold date_code. simpl. lia.
Qed.

Lemma days_mono d1 d2 :
  d1 < d2 → date_code (civil_from_days d1) < date_code (civil_from_days d2).
Proof.
  intros H. rewrite !date_code_from_days.
  set (z1 := d1 + 719468). set (z2 := d2 + 719468).
  assert (z1 < z2) as Hz by (subst z1 z2; lia).
  pose proof (Z.mod_pos_bound z1 146097 ltac:(lia)) as Hm1.
  pose proof (Z.mod_pos_bound z2 146097 ltac:(lia)) as Hm2.
  pose proof (era_code_bounds (z1 mod 146097) ltac:(lia)).
  pose proof (era_code_bounds (z2 mod 146097) ltac:(lia)).
  pose proof (Z.div_mod z1 146097 ltac:(lia)) as E1.
  pose proof (Z.div_mod z2 146097 ltac:(lia)) as E2.
  destruct (decide (z1 / 146097 = z2 / 146097)) as [Heq|Hne].
  - rewrite Heq in *.
    pose proof (era_mono (z1 mod 146097) (z2 mod 146097)
                  ltac:(lia) ltac:(lia) ltac:(lia)). lia.
  - assert (z1 / 146097 < z2 / 146097).
    { pose proof (Z.div_le_mono z1 z2 146097 ltac:(lia) ltac:(lia)). lia. }
    lia.
Qed.

(** *** The code of an instant grows with the instant *)

Lemma clock_code_mono a b :
  0 ≤ a → a < b → b < 86400 → clock_code a < clock_code b.
Proof.
  intros Ha Hab Hb. unfold clock_code. Z.div_mod_to_equations. lia.
Qed.

Lemma clock_code_bounds a : 0 ≤ a < 86400 → 0 ≤ clock_code a < 1000000.
Proof. intros Ha. unfold clock_code. Z.div_mod_to_equations. lia. Qed.

Lemma stamp_code_mono s1 s2 : s1 < s2 → stamp_code s1 < stamp_code s2.
Proof.
  intros H. unfold stamp_code.
  pose proof (Z.mod_pos_bound s1 86400 ltac:(lia)) as Hm1.
  pose proof (Z.mod_pos_bound s2 86400 ltac:(lia)) as Hm2.
  pose proof (clock_code_bounds _ Hm1). pose proof (clock_code_bounds _ Hm2).
  pose proof (Z.div_mod s1 86400 ltac:(lia)) as E1.
  pose proof (Z.div_mod s2 86400 ltac:(lia)) as E2.
  destruct (decide (s1 / 86400 = s2 / 86400)) as [Heq|Hne].
  - rewrite Heq in *.
    pose proof (clock_code_mono (s1 mod 86400) (s2 mod 86400)
                  ltac:(lia) ltac:(lia) ltac:(lia)). lia.
  - assert (s1 / 86400 < s2 / 86400).
    { pose proof (Z.div_le_mono s1 s2 86400 ltac:(lia) ltac:(lia)). lia. }
    pose proof (days_mono (s1 / 86400) (s2 / 86400) ltac:(lia)). lia.
Qed.

(** *** Texts of fixed width compare as their digits *)

Lemma compare_cons (c1 c2 : ascii) (s1 s2 : string) :
  String.compare (String c1 s1) (String c2 s2)
  = match Ascii.compare c1 c2 with
    | Eq => String.compare s1 s2
    | c => c
    end.
Proof. reflexivity. Qed.

Lemma ascii_compare_refl (c : ascii) : Ascii.compare c c = Eq.
Proof. unfold Ascii.compare. apply N.compare_refl. Qed.

Lemma compare_app (a b x y : string) :
  String.length a = String.length b →
  String.compare (a +:+ x) (b +:+ y)
  = match String.compare a b with
    | Eq => String.compare x y
    | c => c
    end.
Proof.
  revert b. induction a as [|c a IH]; intros [|e b] Hlen; try done.
  rewrite !app_cons, !compare_cons.
  destruct (Ascii.compare c e); [|done..].
  apply IH. by injection Hlen.
Qed.

Lemma compare_sep (sep x y : string) :
  String.compare (sep +:+ x) (sep +:+ y) = String.compare x y.
Proof.
  induction sep as [|c sep IH]; [done|].
  by rewrite !app_cons, compare_cons, ascii_compare_refl.
Qed.

Lemma digit_compare (a b : Z) :
  0 ≤ a ≤ 9 → 0 ≤ b ≤ 9 → Ascii.compare (digit a) (digit b) = (a ?= b).
Proof.
  intros Ha Hb.
  assert (a = 0 ∨ a = 1 ∨ a = 2 ∨ a = 3 ∨ a = 4 ∨ a = 5 ∨ a = 6 ∨ a = 7 ∨
          a = 8 ∨ a = 9) as Ha' by lia.
  assert (b = 0 ∨ b = 1 ∨ b = 2 ∨ b = 3 ∨ b = 4 ∨ b = 5 ∨ b = 6 ∨ b = 7 ∨
          b = 8 ∨ b = 9) as Hb' by lia.
  repeat (destruct Ha' as [->|Ha']); try subst a;
    repeat (destruct Hb' as [->|Hb']); try subst b; reflexivity.
Qed.

Lemma length_app_char (s : string) (c : ascii) :
  String.length (s +:+ String c EmptyString) = S (String.length s).
Proof.
  induction s as [|e s IH]; [done|].
  rewrite app_cons. cbn [String.length]. by rewrite IH.
Qed.

Lemma pad_length (n : nat) (v : Z) : String.length (pad n v) = n.
Proof.
  revert v. induction n as [|n IH]; intros v; [done|].
  cbn [pad]. by rewrite length_app_char, IH.
Qed.

Lemma compare_hi_lo (B hi1 lo1 hi2 lo2 : Z) :
  0 ≤ lo1 < B → 0 ≤ lo2 < B →
  (hi1 * B + lo1 ?= hi2 * B + lo2)
  = match hi1 ?= hi2 with
    | Eq => lo1 ?= lo2
    | c => c
    end.
Proof.
  intros H1 H2. destruct (Z.compare_spec hi1 hi2) as [->|Hlt|Hgt].
  - destruct (Z.compare_spec lo1 lo2) as [->|Hlt|Hgt].
    + apply Z.compare_refl.
    + apply Z.compare_lt_iff. lia.
    + apply Z.compare_gt_iff. lia.
  - apply Z.compare_lt_iff. nia.
  - apply Z.compare_gt_iff. nia.
Qed.

Lemma pad_compare (n : nat) (u v : Z) :
  0 ≤ u < 10 ^ Z.of_nat n → 0 ≤ v < 10 ^ Z.of_nat n →
  String.compare (pad n u) (pad n v) = (u ?= v).
Proof.
  revert u v. induction n as [|n IH]; intros u v Hu Hv.
  - simpl in *. assert (u = 0) as -> by lia. assert (v = 0) as -> by lia. done.
  - rewrite Nat2Z.inj_succ, Z.pow_succ_r in Hu, Hv by lia.
    cbn [pad]. rewrite compare_app by (by rewrite !pad_length).
    rewrite IH by (Z.div_mod_to_equations; lia).
    rewrite compare_cons, digit_compare
      by (Z.div_mod_to_equations; lia).
    change (String.compare "" "") with Eq.
    rewrite (Z.div_mod u 10) at 3 by lia.
    rewrite (Z.div_mod v 10) at 3 by lia.
    rewrite (Z.mul_comm 10 (u / 10)), (Z.mul_comm 10 (v / 10)).
    rewrite compare_hi_lo by (Z.div_mod_to_equations; lia).
    destruct (u / 10 ?= v / 10); [|done..].
    by destruct (u mod 10 ?= v mod 10).
Qed.

Lemma pad_field_compare (n : nat) (u v : Z) (x y : string) :
  0 ≤ u < 10 ^ Z.of_nat n → 0 ≤ v < 10 ^ Z.of_nat n →
  String.compare (pad n u +:+ x) (pad n v +:+ y)
  = match u ?= v with
    | Eq => String.compare x y
    | c => c
    end.
Proof.
  intros Hu Hv. rewrite compare_app by (by rewrite !pad_length).
  by rewrite pad_compare.
Qed.

Lemma civil_from_days_ranges days :
  -719528 ≤ days ≤ 2932896 →
  let '(y, m, d) := civil_from_days days in
  0 ≤ y ≤ 9999 ∧ 1 ≤ m ≤ 12 ∧ 1 ≤ d ≤ 31.
Proof.
  intros Hd.
  assert (101 ≤ date_code (civil_from_days days) ≤ 99991231) as Hcode.
  { assert (date_code (civil_from_days (-719528)) = 101) as H0 by reflexivity.
    assert (date_code (civil_from_days 2932896) = 99991231) as H1
      by reflexivity.
    destruct (decide (days = -719528)) as [->|]; [lia|].
    destruct (decide (days = 2932896)) as [->|]; [lia|].
    pose proof (days_mono (-719528) days ltac:(lia)).
    pose proof (days_mono days 2932896 ltac:(lia)). lia. }
  unfold civil_from_days in *.
  pose proof (civil_of_doe_ranges ((days + 719468) mod 146097)
                ltac:(pose proof (Z.mod_pos_bound (days + 719468) 146097);
                      lia)) as Hr.
  destruct (civil_of_doe ((days + 719468) mod 146097)) as [[y m] d].
  unfold date_code in Hcode. simpl in Hcode. lia.
Qed.

Lemma stamp_text_code (s1 s2 : Z) :
  in_datetime_range s1 = true → in_datetime_range s2 = true →
  String.compare (stamp_text s1) (stamp_text s2)
  = (stamp_code s1 ?= stamp_code s2).
Proof.
  unfold in_datetime_range. rewrite !andb_true_iff, !Z.leb_le.
  intros H1 H2. unfold stamp_text, stamp_code, clock_code.
  pose proof (civil_from_days_ranges (s1 / 86400)
                ltac:(Z.div_mod_to_equations; lia)) as R1.
  pose proof (civil_from_days_ranges (s2 / 86400)
                ltac:(Z.div_mod_to_equations; lia)) as R2.
  destruct (civil_from_days (s1 / 86400)) as [[y1 m1] d1].
  destruct (civil_from_days (s2 / 86400)) as [[y2 m2] d2].
  unfold date_code. cbn [fst snd].
  pose proof (Z.mod_pos_bound s1 86400 ltac:(lia)) as Hm1.
  pose proof (Z.mod_pos_bound s2 86400 ltac:(lia)) as Hm2.
  set (a1 := s1 mod 86400) in *. set (a2 := s2 mod 86400) in *.
  rewrite pad_field_compare by (simpl; lia). rewrite compare_sep.
  rewrite pad_field_compare by (simpl; lia). rewrite compare_sep.
  rewrite pad_field_compare by (simpl; lia). rewrite compare_sep.
  rewrite pad_field_compare by (simpl; Z.div_mod_to_equations; lia).
  rewrite compare_sep.
  rewrite pad_field_compare by (simpl; Z.div_mod_to_equations; lia).
  rewrite compare_sep.
  rewrite pad_compare by (simpl; Z.div_mod_to_equations; lia).
  symmetry.
  replace ((y1 * 10000 + m1 * 100 + d1) * 1000000 +
           (a1 / 3600 * 10000 + a1 mod 3600 / 60 * 100 + a1 mod 60))
    with (y1 * 10000000000 +
          (m1 * 100000000 +
           (d1 * 1000000 +
            (a1 / 3600 * 10000 + (a1 mod 3600 / 60 * 100 + a1 mod 60)))))
    by lia.
  replace ((y2 * 10000 + m2 * 100 + d2) * 1000000 +
           (a2 / 3600 * 10000 + a2 mod 3600 / 60 * 100 + a2 mod 60))
    with (y2 * 10000000000 +
          (m2 * 100000000 +
           (d2 * 1000000 +
            (a2 / 3600 * 10000 + (a2 mod 3600 / 60 * 100 + a2 mod 60)))))
    by lia.
  rewrite compare_hi_lo by (Z.div_mod_to_equations; lia).
  destruct (y1 ?= y2); [|done..].
  rewrite compare_hi_lo by (Z.div_mod_to_equations; lia).
  destruct (m1 ?= m2); [|done..].
  rewrite compare_hi_lo by (Z.div_mod_to_equations; lia).
  destruct (d1 ?= d2); [|done..].
  rewrite compare_hi_lo by (Z.div_mod_to_equations; lia).
  destruct (a1 / 3600 ?= a2 / 3600); [|done..].
  rewrite compare_hi_lo by (Z.div_mod_to_equations; lia).
  done.
Qed.

Theorem stamp_text_order (s1 s2 : Z) :
  in_datetime_range s1 = true → in_datetime_range s2 = true →
  String.compare (stamp_text s1) (stamp_text s2) = (s1 ?= s2).
Proof.
  intros H1 H2. rewrite stamp_text_code by done.
  destruct (Z.compare_spec s1 s2) as [->|Hlt|Hgt].
  - apply Z.compare_refl.
  - apply Z.compare_lt_iff. by apply stamp_code_mono.
  - apply Z.compare_gt_iff. by apply stamp_code_mono.
Qed.

End SqliteFacts.

(** ** The aggregator of [faucet_stats.py] *)

Module FaucetStatsFacts.
Import Py PyFacts FaucetStats.

(** A property of the accumulators that the empty state has and every
    iteration keeps holds when the loop ends. *)
Lemma analyze_loop_invariant (P : totals → Prop) :
  P no_totals →
  (∀ st t, P st → P (analyze_step st t)) →
  ∀ transactions, P (foldl analyze_step no_totals transactions).
Proof.
  intros Hinit Hstep transactions.
  generalize dependent no_totals.
  induction transactions as [|t transactions IH]; intros st Hst; simpl.
  - exact Hst.
  - apply IH, Hstep, Hst.
Qed.

Lemma analyze_step_counted st t :
  counted t = true →
  analyze_step st t =
    {| distributions := dict_add (distributions st) (sender t) (amount t);
       receipts := dict_add (receipts st) (recipient t) (amount t);
       balance := dict_add (dict_add (balance st) (sender t) (amount t))
                           (recipient t) (- amount t) |}.
Proof.
  unfold counted, analyze_step. intros Hc.
  apply andb_true_iff in Hc as [Hs Hf].
  apply negb_true_iff in Hs. by rewrite Hs, Hf.
Qed.

Lemma analyze_step_skipped st t :
  counted t = false → analyze_step st t = st.
Proof.
  unfold counted, analyze_step. intros Hc.
  destruct (success t =? 0); [done|]. simpl in Hc. by rewrite Hc.
Qed.

(** Every row the query selects is counted by the loop. *)
Lemma where_clause_counted cutoff t :
  where_clause cutoff t = true → counted t = true.
Proof.
  unfold where_clause, counted. intros Hw.
  apply andb_true_iff in Hw as [Hw _].
  apply andb_true_iff in Hw as [Hty Hsucc].
  apply bool_decide_eq_true in Hty. apply Z.eqb_eq in Hsucc.
  rewrite Hty, Hsucc. reflexivity.
Qed.

Lemma reader_rows_counted now file log transactions :
  get_transactions_from_sqlite now file = (log, Ok transactions) →
  Forall (λ t, counted t = true) transactions.
Proof.
  destruct file as [[msg|msg|rows]|]; simpl; intros Heq;
    inversion Heq; subst; try constructor.
  apply Forall_forall. intros t Ht.
  apply list_elem_of_In, filter_In in Ht as [_ Ht].
  by apply where_clause_counted in Ht.
Qed.

(** The invariants of the loop, on the accumulators. *)
Lemma sums_agree_step st t :
  sum (values (distributions st)) = sum (values (receipts st)) →
  sum (values (distributions (analyze_step st t)))
  = sum (values (receipts (analyze_step st t))).
Proof.
  intros Hst. destruct (counted t) eqn:Hc.
  - rewrite analyze_step_counted by done. simpl.
    rewrite !sum_values_dict_add. lia.
  - by rewrite analyze_step_skipped.
Qed.

Lemma balance_step st t u :
  dict_get (balance st) u
  = dict_get (distributions st) u - dict_get (receipts st) u →
  dict_get (balance (analyze_step st t)) u
  = dict_get (distributions (analyze_step st t)) u
    - dict_get (receipts (analyze_step st t)) u.
Proof.
  intros Hst. destruct (counted t) eqn:Hc.
  - rewrite analyze_step_counted by done. simpl.
    rewrite !dict_get_dict_add, Hst.
    destruct (decide (sender t = u)), (decide (recipient t = u)); lia.
  - by rewrite analyze_step_skipped.
Qed.

Lemma key_set_step st t :
  key_set (balance st)
  = key_set (distributions st) ∪ key_set (receipts st) →
  key_set (balance (analyze_step st t))
  = key_set (distributions (analyze_step st t))
    ∪ key_set (receipts (analyze_step st t)).
Proof.
  intros Hst. destruct (counted t) eqn:Hc.
  - rewrite analyze_step_counted by done. simpl.
    rewrite !key_set_dict_add, Hst.
    apply set_eq. intros u. rewrite !elem_of_union. tauto.
  - by rewrite analyze_step_skipped.
Qed.

(** C2. For every list of records and every user [u], the balance that
    [analyze_faucet_transactions] of [faucet_stats.py] returns for [u] is
    the distributed total of [u] minus the received total of [u], a user
    absent from a mapping counting as zero. *)
Theorem balance_is_difference (transactions : list tx) (u : string) :
  let '(distributed, received, balance) := analyze_records transactions in
  dict_get balance u = dict_get distributed u - dict_get received u.
Proof.
  unfold analyze_records.
  apply (analyze_loop_invariant (λ st,
    dict_get (balance st) u
    = dict_get (distributions st) u - dict_get (receipts st) u)).
  - reflexivity.
  - intros st t. apply balance_step.
Qed.

(** C6. The records A to B of 100 and B to C of 50, both counted, give
    distributed [{A: 100, B: 50}], received [{B: 100, C: 50}] and balance
    [{A: 100, B: -50, C: -50}]. *)
Theorem example_two_records :
  analyze_records
    [ mk_tx "A" "B" 100 sample_time "faucet" 1 "";
      mk_tx "B" "C" 50 sample_time "faucet" 1 "" ]
  = ( [("A", 100); ("B", 50)],
      [("B", 100); ("C", 50)],
      [("A", 100); ("B", -50); ("C", -50)] )%string.
Proof. reflexivity. Qed.

(** C10. For every list of records, the keys of the balance mapping of
    [faucet_stats.py] are the keys of the distributed mapping together with
    the keys of the received mapping. *)
Theorem balance_keys_union (transactions : list tx) :
  let '(distributed, received, balance) := analyze_records transactions in
  key_set balance = key_set distributed ∪ key_set received.
Proof.
  unfold analyze_records.
  apply (analyze_loop_invariant (λ st,
    key_set (balance st)
    = key_set (distributions st) ∪ key_set (receipts st))).
  - apply set_eq. intros u. unfold key_set. simpl.
    rewrite elem_of_union. rewrite !elem_of_empty. tauto.
  - intros st t. apply key_set_step.
Qed.

(** The mappings returned hold each user once. *)
Lemma analyze_records_NoDup (transactions : list tx) :
  let '(distributed, received, balance) := analyze_records transactions in
  NoDup (keys distributed) ∧ NoDup (keys received) ∧ NoDup (keys balance).
Proof.
  unfold analyze_records.
  apply (analyze_loop_invariant (λ st,
    NoDup (keys (distributions st)) ∧ NoDup (keys (receipts st)) ∧
    NoDup (keys (balance st)))).
  - repeat split; apply NoDup_nil_2.
  - intros st t (Hd & Hr & Hb). destruct (counted t) eqn:Hc.
    + rewrite analyze_step_counted by done. simpl.
      repeat split; repeat apply NoDup_keys_dict_add; done.
    + by rewrite analyze_step_skipped.
Qed.

End FaucetStatsFacts.

(** ** The functions of [get_faucet_stats.py] *)

Module GetFaucetStatsFacts.
Import Py PyFacts GetFaucetStats.

(** The value of [get_telegram_username], with the index [[1]] resolved. *)
Lemma get_telegram_username_eq (wallet_name : string) :
  get_telegram_username wallet_name
  = Ok (Some (if contains "(@" wallet_name && contains ")" wallet_name
              then strip ")" (text_before "(@" (text_after "(@" wallet_name))
              else wallet_name)).
Proof.
  unfold get_telegram_username.
  destruct (contains "(@" wallet_name) eqn:Hmark; [|done].
  destruct (contains ")" wallet_name); [|done].
  simpl andb. cbv iota.
  by rewrite split_second.
Qed.

(** C9. [get_telegram_username] always returns a string, never an absent
    value and never an exception.  For a name that contains both ["(@"] and
    [")"] the string is the text between the first ["(@"] and the next
    ["(@"] (the end of the name when there is no other), with the [")"]
    characters stripped from both ends; for any other name it is the name
    itself. *)
Theorem telegram_username_value (wallet_name : string) :
  get_telegram_username wallet_name
  = Ok (Some (if contains "(@" wallet_name && contains ")" wallet_name
              then strip ")" (text_before "(@" (text_after "(@" wallet_name))
              else wallet_name)).
Proof. apply get_telegram_username_eq. Qed.

(** With two markers in the name the text after the first marker is not
    what comes back: the second piece of the split ends at the next
    marker. *)
Lemma telegram_username_two_markers :
  get_telegram_username "1 (@a) (@b)" = Ok (Some "a) "%string) ∧
  strip ")" (text_after "(@" "1 (@a) (@b)") = "a) (@b"%string ∧
  get_telegram_username "1 (@a) (@b)"
  ≠ Ok (Some (strip ")" (text_after "(@" "1 (@a) (@b)"))).
Proof. split; [reflexivity|]. split; [reflexivity|]. discriminate. Qed.

(** The body of the loop on a payment, by what it does. *)
Lemma payment_body_counted now username st p :
  counted now p = true →
  payment_body now username st p
  = Ok (if default false (out p)
        then (dict_add st.1 username (amount p), st.2)
        else (st.1, dict_add st.2 username (amount p))).
Proof.
  unfold counted, payment_body. destruct (memo_lower p) as [m|e]; [|done].
  intros Hc. apply andb_true_iff in Hc as [Hm Ht]. rewrite Hm. simpl.
  destruct (fromtimestamp now (time p)) as [t|e]; [|done].
  apply negb_true_iff in Ht. rewrite Ht.
  by destruct (default false (out p)).
Qed.

Lemma payment_body_skipped now username st p :
  counted now p = false →
  payment_body now username st p = Ok st ∨
  ∃ e, payment_body now username st p = Raise e.
Proof.
  unfold counted, payment_body.
  destruct (memo_lower p) as [m|e]; [|by eauto].
  destruct (contains "faucet" m); simpl; [|by left].
  destruct (fromtimestamp now (time p)) as [t|e]; [|by eauto].
  intros Hc. apply negb_false_iff in Hc. rewrite Hc. by left.
Qed.

Lemma payment_raises_eq now username st p :
  payment_raises now p
  = match payment_body now username st p with
    | Raise e => Some e
    | Ok _ => None
    end.
Proof.
  unfold payment_raises, payment_body.
  destruct (memo_lower p) as [m|e]; [|done].
  destruct (negb (contains "faucet" m)); [done|].
  destruct (fromtimestamp now (time p)) as [t|e]; [|done].
  destruct (t <? twelve_months_ago now); [done|].
  by destruct (default false (out p)).
Qed.

(** Whether the loop over the payments reaches an update for a payment. *)
Lemma payment_step_skipped now username st p :
  counted now p = false → payment_step now username st p = st.
Proof.
  intros Hc. unfold payment_step.
  by destruct (payment_body_skipped now username st p Hc) as [->|[e ->]].
Qed.

Lemma payment_step_counted now username st p :
  counted now p = true →
  payment_step now username st p
  = if default false (out p)
    then (dict_add st.1 username (amount p), st.2)
    else (st.1, dict_add st.2 username (amount p)).
Proof.
  intros Hc. unfold payment_step.
  by rewrite payment_body_counted.
Qed.

(** One wallet: the user name is always found, so the step is the loop
    over the payments of the wallet. *)
Lemma username_of_eq (w : wallet) :
  get_telegram_username (name w) = Ok (username_of w).
Proof. unfold username_of. by rewrite get_telegram_username_eq. Qed.

Lemma wallet_step_eq now all_transactions st entry :
  wallet_step now all_transactions (Ok st) entry
  = payments_loop now (username_of entry.2) st
      (store_get all_transactions entry.1 []).
Proof. unfold wallet_step. by rewrite username_of_eq. Qed.

(** After an exception the loop over the wallets does nothing more. *)
Lemma wallets_after_raise now all_transactions all_wallets e :
  foldl (wallet_step now all_transactions) (Raise e) all_wallets = Raise e.
Proof. induction all_wallets as [|entry all_wallets IH]; [done|exact IH]. Qed.

End GetFaucetStatsFacts.

(** ** The aggregators of the two scripts *)

Module Aggregation.
Import Py PyFacts.

(** C1. For every list of records the aggregator of [faucet_stats.py]
    goes through, the sum of the distributed values equals the sum of the
    received values.  In [get_faucet_stats.py] a counted payment adds its
    amount to the distributed sum when it is outgoing and to the received
    sum otherwise, and an uncounted payment changes neither sum. *)
Theorem sums_of_the_mappings :
  (∀ transactions : list FaucetStats.tx,
     let '(distributed, received, _) :=
       FaucetStats.analyze_records transactions in
     sum (values distributed) = sum (values received)) ∧
  (∀ now username st (p : GetFaucetStats.payment),
     let st' := GetFaucetStats.payment_step now username st p in
     sum (values st'.1)
     = sum (values st.1)
       + (if GetFaucetStats.counted now p
             && default false (GetFaucetStats.out p)
          then GetFaucetStats.amount p else 0) ∧
     sum (values st'.2)
     = sum (values st.2)
       + (if GetFaucetStats.counted now p
             && negb (default false (GetFaucetStats.out p))
          then GetFaucetStats.amount p else 0)).
Proof.
  split.
  - intros transactions. unfold FaucetStats.analyze_records.
    apply (FaucetStatsFacts.analyze_loop_invariant (λ st,
      sum (values (FaucetStats.distributions st))
      = sum (values (FaucetStats.receipts st)))).
    + reflexivity.
    + intros st t. apply FaucetStatsFacts.sums_agree_step.
  - intros now username st p.
    destruct (GetFaucetStats.counted now p) eqn:Hc; cbn zeta.
    + rewrite GetFaucetStatsFacts.payment_step_counted by done.
      destruct (default false (GetFaucetStats.out p)); simpl;
        rewrite sum_values_dict_add; lia.
    + rewrite GetFaucetStatsFacts.payment_step_skipped by done.
      simpl. lia.
Qed.

(** One outgoing faucet payment of 1000 in the wallet of alice: the API
    aggregator returns a distributed sum of 1000 and a received sum of 0. *)
Lemma api_amount_not_conserved :
  GetFaucetStats.analyze_faucet_transactions (utc_clock 0)
    [("w1"%string,
      [GetFaucetStats.mk_payment
        (Some (GetFaucetStats.MemoText "faucet")) 0 1000 (Some true)])]
    [("w1"%string, GetFaucetStats.mk_wallet "w1" "alice" "key")]
  = Ok ([(Some "alice"%string, 1000)], []) ∧
  sum (values [(Some "alice"%string, 1000)])
  ≠ sum (values ([] : dict (option string))).
Proof. split; [reflexivity|]. vm_compute. discriminate. Qed.

(** C3. A record of [faucet_stats.py] that the loop counts adds its amount
    to both [distributions[sender]] and [receipts[recipient]], and a record
    that it skips changes neither mapping.  A payment of
    [get_faucet_stats.py] that the loop counts adds its amount to one
    mapping, [distributions[username]] when the payment is outgoing and
    [receipts[username]] otherwise, and leaves the other as it was. *)
Theorem updates_per_record :
  (∀ st (t : FaucetStats.tx),
     let st' := FaucetStats.analyze_step st t in
     (FaucetStats.counted t = true ∧
      FaucetStats.distributions st'
      = dict_add (FaucetStats.distributions st)
          (FaucetStats.sender t) (FaucetStats.amount t) ∧
      FaucetStats.receipts st'
      = dict_add (FaucetStats.receipts st)
          (FaucetStats.recipient t) (FaucetStats.amount t)) ∨
     (FaucetStats.counted t = false ∧
      FaucetStats.distributions st' = FaucetStats.distributions st ∧
      FaucetStats.receipts st' = FaucetStats.receipts st)) ∧
  (∀ now username st (p : GetFaucetStats.payment),
     let st' := GetFaucetStats.payment_step now username st p in
     (GetFaucetStats.counted now p = false ∧ st' = st) ∨
     (GetFaucetStats.counted now p = true ∧
      default false (GetFaucetStats.out p) = true ∧
      st'.1 = dict_add st.1 username (GetFaucetStats.amount p) ∧
      st'.2 = st.2) ∨
     (GetFaucetStats.counted now p = true ∧
      default false (GetFaucetStats.out p) = false ∧
      st'.1 = st.1 ∧
      st'.2 = dict_add st.2 username (GetFaucetStats.amount p))).
Proof.
  split.
  - intros st t. cbn zeta. destruct (FaucetStats.counted t) eqn:Hc.
    + left. by rewrite FaucetStatsFacts.analyze_step_counted.
    + right. by rewrite FaucetStatsFacts.analyze_step_skipped.
  - intros now username st p. cbn zeta.
    destruct (GetFaucetStats.counted now p) eqn:Hc.
    + right. rewrite GetFaucetStatsFacts.payment_step_counted by done.
      destruct (default false (GetFaucetStats.out p)); [left|right]; done.
    + left. by rewrite GetFaucetStatsFacts.payment_step_skipped.
Qed.

(** The outgoing faucet payment of 1000 of alice changes the distributed
    mapping and not the received one: neither both updates nor none. *)
Lemma api_payment_one_side :
  (GetFaucetStats.payment_step (utc_clock 0) (Some "alice"%string)
     GetFaucetStats.no_totals
     (GetFaucetStats.mk_payment
        (Some (GetFaucetStats.MemoText "faucet")) 0 1000 (Some true)))
  = ([(Some "alice"%string, 1000)], []) ∧
  ¬ ((∃ sender recipient,
        [(Some "alice"%string, 1000)]
        = dict_add GetFaucetStats.no_totals.1 sender 1000 ∧
        ([] : dict (option string))
        = dict_add GetFaucetStats.no_totals.2 recipient 1000) ∨
     ([(Some "alice"%string, 1000)] = GetFaucetStats.no_totals.1 ∧
      ([] : dict (option string)) = GetFaucetStats.no_totals.2)).
Proof.
  split; [reflexivity|].
  intros [(sender & recipient & _ & Hr) | [Hd _]]; discriminate.
Qed.

End Aggregation.

(** ** The reports *)

Module Reports.
Import Py PyFacts.

(** C4. For every mapping given to [format_stats], of either script, the
    lines after the header line are the items of the mapping, one line
    each, in an order where the amount never goes up from a line to a later
    one; items of equal amount keep the order they have in the mapping. *)
Theorem report_rows_descending (fmt : Z → string) (title : string) :
  (∀ stats : dict string,
     FaucetStats.report_lines fmt stats title
     = FaucetStats.header title
       :: map (FaucetStats.line fmt) (FaucetStats.report_rows stats) ∧
     FaucetStats.report_rows stats ≡ₚ items stats ∧
     StronglySorted value_ge (FaucetStats.report_rows stats) ∧
     ∀ v, filter (λ y, y.2 = v) (FaucetStats.report_rows stats)
          = filter (λ y, y.2 = v) (items stats)) ∧
  (∀ stats : dict (option string),
     GetFaucetStats.report_lines fmt stats title
     = GetFaucetStats.header title
       :: map (GetFaucetStats.line fmt) (GetFaucetStats.report_rows stats) ∧
     GetFaucetStats.report_rows stats ≡ₚ items stats ∧
     StronglySorted value_ge (GetFaucetStats.report_rows stats) ∧
     ∀ v, filter (λ y, y.2 = v) (GetFaucetStats.report_rows stats)
          = filter (λ y, y.2 = v) (items stats)).
Proof.
  split; intros stats; (split; [reflexivity|]).
  - unfold FaucetStats.report_rows.
    split; [apply sorted_by_value_desc_Permutation|].
    split; [apply sorted_by_value_desc_sorted|].
    intros v. apply sorted_by_value_desc_stable.
  - unfold GetFaucetStats.report_rows.
    split; [apply sorted_by_value_desc_Permutation|].
    split; [apply sorted_by_value_desc_sorted|].
    intros v. apply sorted_by_value_desc_stable.
Qed.

(** Two users with the same amount: the two lines of the report carry
    equal amounts, so the amounts do not go strictly down. *)
Lemma report_rows_tie :
  FaucetStats.report_rows [("A"%string, 5); ("B"%string, 5)]
  = [("A"%string, 5); ("B"%string, 5)] ∧
  ¬ StronglySorted value_gt
      (FaucetStats.report_rows [("A"%string, 5); ("B"%string, 5)]).
Proof.
  split; [reflexivity|].
  intros Hs. apply StronglySorted_inv in Hs as [_ Hall].
  apply Forall_cons in Hall as [Hlt _].
  unfold value_gt in Hlt. simpl in Hlt. lia.
Qed.

Lemma format_stats_empty (fmt : Z → string) (title : string) :
  FaucetStats.format_stats fmt [] title = FaucetStats.header title ∧
  GetFaucetStats.format_stats fmt [] title = GetFaucetStats.header title.
Proof. split; reflexivity. Qed.

(** Wallets without payments leave the accumulators as they are. *)
Lemma api_no_payments now all_transactions all_wallets st :
  Forall (λ entry : string * GetFaucetStats.wallet,
            store_get all_transactions entry.1 [] = []) all_wallets →
  foldl (GetFaucetStats.wallet_step now all_transactions) (Ok st) all_wallets
  = Ok st.
Proof.
  induction 1 as [|entry all_wallets Hentry _ IH]; [done|].
  cbn [foldl]. rewrite GetFaucetStatsFacts.wallet_step_eq, Hentry.
  exact IH.
Qed.

(** C5. When the reader of [faucet_stats.py] returns no record, the three
    reports that [main] prints are their header lines alone.  When no
    wallet has a payment, the aggregator of [get_faucet_stats.py] returns
    two empty mappings, and the report of an empty mapping is its header
    line alone; when there is no user at all, its [main] prints no
    report. *)
Theorem empty_source_header_only (fmt : Z → string) (now : clock)
    (file : option FaucetStats.db_file) (log : output)
    (all_transactions : list (string * list GetFaucetStats.payment))
    (all_wallets : list (string * GetFaucetStats.wallet))
    (title : string) (api : GetFaucetStats.lnbits) (ulog : output) :
  FaucetStats.get_transactions_from_sqlite now file = (log, Ok []) →
  Forall (λ entry : string * GetFaucetStats.wallet,
            store_get all_transactions entry.1 [] = []) all_wallets →
  GetFaucetStats.get_users (GetFaucetStats.users_api api) = (ulog, Ok []) →
  FaucetStats.main fmt now file
  = ( ["Fetching faucet statistics..."%string] ++ log ++
      [ nl +:+ "Faucet Statistics for the Last 7 Days:";
        repeat_str "-" 50;
        FaucetStats.header
          "Total Amount Distributed per User of last 7 days";
        FaucetStats.header
          "Total Amount Received per User of last 7 days";
        FaucetStats.header
          "Balance of Faucets per User of last 7 days (negative = lurker)" ],
      Ok tt ) ∧
  GetFaucetStats.analyze_faucet_transactions now all_transactions all_wallets
  = Ok ([], []) ∧
  GetFaucetStats.format_stats fmt [] title = GetFaucetStats.header title ∧
  GetFaucetStats.main fmt now api
  = ( ["Fetching faucet statistics from LNbits..."%string] ++ ulog ++
      ["No users found!"%string], Ok tt ).
Proof.
  intros Hread Hempty Husers. split; [|split; [|split]].
  - unfold FaucetStats.main, FaucetStats.analyze_faucet_transactions.
    unfold mbind, io_mbind, io_bind, print. rewrite Hread.
    simpl. by rewrite app_nil_r.
  - by apply api_no_payments.
  - reflexivity.
  - unfold GetFaucetStats.main.
    unfold mbind, io_mbind, io_bind, print. by rewrite Husers.
Qed.

Lemma empty_source_header_only_witness :
  FaucetStats.main fmt_int (utc_clock 0) None
  = ( ["Fetching faucet statistics..."%string] ++
      ["Error: Transactions database not found at data/transactions.db"
         %string] ++
      [ nl +:+ "Faucet Statistics for the Last 7 Days:";
        repeat_str "-" 50;
        FaucetStats.header
          "Total Amount Distributed per User of last 7 days";
        FaucetStats.header
          "Total Amount Received per User of last 7 days";
        FaucetStats.header
          "Balance of Faucets per User of last 7 days (negative = lurker)" ],
      Ok tt ) ∧
  GetFaucetStats.analyze_faucet_transactions (utc_clock 0)
    [("w1"%string, [])]
    [("w1"%string, GetFaucetStats.mk_wallet "w1" "1 (@alice)" "key");
     ("w2"%string, GetFaucetStats.mk_wallet "w2" "bob" "key2")]
  = Ok ([], []) ∧
  GetFaucetStats.format_stats fmt_int [] "Total Amount Received per User"
  = GetFaucetStats.header "Total Amount Received per User" ∧
  GetFaucetStats.main fmt_int (utc_clock 0)
    (GetFaucetStats.mk_lnbits
       (Ok (GetFaucetStats.mk_response 503 "Service Unavailable" (Ok [])))
       (λ _, Raise (RequestException "unused"))
       (λ _, Raise (RequestException "unused")))
  = ( ["Fetching faucet statistics from LNbits..."%string] ++
      ["Error getting users: Service Unavailable"%string] ++
      ["No users found!"%string], Ok tt ).
Proof.
  apply (empty_source_header_only fmt_int (utc_clock 0) None
           ["Error: Transactions database not found at data/transactions.db"
              %string]).
  - reflexivity.
  - repeat constructor.
  - reflexivity.
Defined.

End Reports.

(** ** The source readers *)

Module Readers.
Import Py PyFacts Sqlite.

Lemma filter_bool_Prop {A : Type} (f : A → bool) (P : A → Prop)
    `{∀ x, Decision (P x)} (l : list A) :
  (∀ x, f x = true ↔ P x) → List.filter f l = filter P l.
Proof.
  intros Hf. induction l as [|x l IH]; [done|].
  simpl. rewrite filter_cons, IH.
  destruct (decide (P x)) as [HP|HP].
  - apply Hf in HP. by rewrite HP.
  - destruct (f x) eqn:Hfx; [|done]. by apply Hf in Hfx.
Qed.

Lemma sql_ge_text_classes (v : sql_value) (bound : string) :
  sql_ge_text v (Some bound) = true ↔
  (∃ s, v = SqlText s ∧ String.compare s bound ≠ Lt) ∨ (∃ b, v = SqlBlob b).
Proof.
  destruct v as [|n| |s|b]; simpl.
  - split; [done|]. by intros [(s & ? & _)|(b & ?)].
  - split; [done|]. by intros [(s & ? & _)|(b & ?)].
  - split; [done|]. by intros [(s & ? & _)|(b & ?)].
  - unfold String.ltb. split.
    + intros H. left. exists s. split; [done|].
      by destruct (String.compare s bound).
    + intros [(s' & [= <-] & H)|(b & ?)]; [|done].
      by destruct (String.compare s bound).
  - split; [|done]. intros _. right. by exists b.
Qed.

Lemma sql_ge_text_stamp (cutoff instant : Z) :
  in_datetime_range cutoff = true → in_datetime_range instant = true →
  sql_ge_text (SqlText (stamp_text instant)) (datetime_unixepoch cutoff)
  = true ↔ cutoff ≤ instant.
Proof.
  intros Hc Hi. unfold datetime_unixepoch. rewrite Hc.
  cbn [sql_ge_text]. unfold String.ltb.
  rewrite SqliteFacts.stamp_text_order by done.
  destruct (Z.compare_spec instant cutoff); cbn [negb]; split; intros;
    try done; lia.
Qed.

Lemma quot_within_unit (a : Z) :
  a - 1000000 < Z.quot a 1000000 * 1000000 < a + 1000000.
Proof.
  pose proof (Z.quot_rem' a 1000000) as Hqr.
  pose proof (Z.rem_bound_abs a 1000000 ltac:(lia)) as Hr.
  lia.
Qed.

(** C8. When the file opens and the query runs, the reader of
    [faucet_stats.py] returns, in the order in which SQLite visits the
    table, exactly the rows
    whose type is ['faucet'], whose success flag is 1 and whose stored time
    is not below the text [datetime(cutoff, 'unixepoch')] as SQLite
    compares values: the stored time is a text that is, byte by byte, not
    before that text, or a blob; a time stored as a number or as [NULL] is
    never selected.  For a time stored as the text [YYYY-MM-DD HH:MM:SS]
    of an instant in UTC this means that the instant is at or after the
    cutoff, with no upper bound.  The cutoff is the instant at which the
    local wall clock showed the reading of now less 7 days, cut to a whole
    second; it is within a second of 7 days before now when the offset of
    the local zone is the same at both moments. *)
Theorem reader_selects (now : clock) (rows : list FaucetStats.tx) :
  FaucetStats.get_transactions_from_sqlite now
    (Some (FaucetStats.Transactions rows))
  = ([], Ok (filter (λ t, FaucetStats.type t = "faucet"%string ∧
                          FaucetStats.success t = 1 ∧
                          sql_ge_text (FaucetStats.time t)
                            (datetime_unixepoch
                               (FaucetStats.twelve_months_ago now))
                          = true) rows)) ∧
  (∀ v bound,
     sql_ge_text v (Some bound) = true ↔
     (∃ s, v = SqlText s ∧ String.compare s bound ≠ Lt) ∨
     (∃ b, v = SqlBlob b)) ∧
  (∀ instant,
     in_datetime_range (FaucetStats.twelve_months_ago now) = true →
     in_datetime_range instant = true →
     sql_ge_text (SqlText (stamp_text instant))
       (datetime_unixepoch (FaucetStats.twelve_months_ago now)) = true ↔
     FaucetStats.twelve_months_ago now ≤ instant) ∧
  timestamp now (wall_now now - 7 * 86400 * 1000000) - 1000000
  < FaucetStats.twelve_months_ago now * 1000000
  < timestamp now (wall_now now - 7 * 86400 * 1000000) + 1000000 ∧
  (timestamp now (wall_now now - 7 * 86400 * 1000000)
   = timestamp now (wall_now now) - 7 * 86400 * 1000000 →
   timestamp now (wall_now now) - 7 * 86400 * 1000000 - 1000000
   < FaucetStats.twelve_months_ago now * 1000000
   < timestamp now (wall_now now) - 7 * 86400 * 1000000 + 1000000).
Proof.
  split; [|split; [|split; [|split]]].
  - unfold FaucetStats.get_transactions_from_sqlite, mret, io_mret, io_ret.
    do 2 f_equal. apply filter_bool_Prop. intros t.
    unfold FaucetStats.where_clause.
    rewrite !andb_true_iff, bool_decide_eq_true, Z.eqb_eq.
    tauto.
  - apply sql_ge_text_classes.
  - intros instant Hc Hi. by apply sql_ge_text_stamp.
  - apply quot_within_unit.
  - intros <-. apply quot_within_unit.
Qed.

Lemma reader_selects_witness :
  (sql_ge_text (SqlText (stamp_text 1699500000))
     (datetime_unixepoch
        (FaucetStats.twelve_months_ago (utc_clock 1700000000000000)))
   = true ↔
   FaucetStats.twelve_months_ago (utc_clock 1700000000000000) ≤ 1699500000) ∧
  1700000000000000 - 7 * 86400 * 1000000 - 1000000
  < FaucetStats.twelve_months_ago (utc_clock 1700000000000000) * 1000000
  < 1700000000000000 - 7 * 86400 * 1000000 + 1000000.
Proof.
  pose proof (reader_selects (utc_clock 1700000000000000) [])
    as (_ & _ & Hstamp & _ & Hzone).
  split.
  - apply (Hstamp 1699500000); vm_compute; reflexivity.
  - apply Hzone. vm_compute. reflexivity.
Defined.

(** A faucet row whose time is the text of the instant 100 seconds after
    the clock reading is returned, and that instant is not inside the 7
    days that end at the clock reading; a faucet row whose time is stored
    as the integer of an instant one hour before the clock reading is not
    returned, and that instant is inside the 7 days. *)
Lemma reader_returns_later_row :
  FaucetStats.get_transactions_from_sqlite (utc_clock 1700000000000000)
    (Some (FaucetStats.Transactions
             [FaucetStats.mk_tx "A" "B" 100
                (SqlText "2023-11-14 22:15:00") "faucet" 1 ""]))
  = ([], Ok [FaucetStats.mk_tx "A" "B" 100
               (SqlText "2023-11-14 22:15:00") "faucet" 1 ""]) ∧
  stamp_text 1700000100 = "2023-11-14 22:15:00"%string ∧
  ¬ FaucetStats.in_last_7_days
      (timestamp (utc_clock 1700000000000000)
         (wall_now (utc_clock 1700000000000000)))
      1700000100 ∧
  FaucetStats.get_transactions_from_sqlite (utc_clock 1700000000000000)
    (Some (FaucetStats.Transactions
             [FaucetStats.mk_tx "A" "B" 100
                (SqlInteger 1699996400) "faucet" 1 ""]))
  = ([], Ok []) ∧
  FaucetStats.in_last_7_days
    (timestamp (utc_clock 1700000000000000)
       (wall_now (utc_clock 1700000000000000)))
    1699996400.
Proof.
  split; [vm_compute; reflexivity|]. split; [vm_compute; reflexivity|].
  split; [|split; [vm_compute; reflexivity|]].
  - unfold FaucetStats.in_last_7_days. cbn [timestamp wall_now utc_clock]. lia.
  - unfold FaucetStats.in_last_7_days. cbn [timestamp wall_now utc_clock]. lia.
Qed.

(** [sqlite3.connect] stands before the [try]: what it raises leaves the
    reader. *)
Lemma connect_error_escapes (now : clock) (msg : string) :
  FaucetStats.get_transactions_from_sqlite now
    (Some (FaucetStats.Unopenable msg))
  = ([], Raise (Sqlite3Error msg)).
Proof. reflexivity. Qed.

(** C7. The reader of [faucet_stats.py] prints a message and returns the
    empty list when the file is missing and when the query raises
    [sqlite3.Error]; each of the three fetchers of [get_faucet_stats.py]
    prints a message and returns the empty list when the status of the
    response is not 200.  An exception of [requests.get] or of
    [response.json()] is not caught by a fetcher: it reaches the caller. *)
Theorem readers_on_failure (now : clock) (msg user_id : string)
    (wallet : GetFaucetStats.wallet) (e : exn)
    (ru : GetFaucetStats.response (list GetFaucetStats.user))
    (rw : GetFaucetStats.response (list GetFaucetStats.wallet))
    (rp : GetFaucetStats.response (list GetFaucetStats.payment)) :
  GetFaucetStats.status_code ru ≠ 200 →
  GetFaucetStats.status_code rw ≠ 200 →
  GetFaucetStats.status_code rp ≠ 200 →
  (FaucetStats.get_transactions_from_sqlite now None
   = ( ["Error: Transactions database not found at " +:+
        FaucetStats.TRANSACTIONS_PATH], Ok [] ) ∧
   FaucetStats.get_transactions_from_sqlite now
     (Some (FaucetStats.Unqueryable msg))
   = ( ["Error querying SQLite database: " +:+ msg], Ok [] ) ∧
   GetFaucetStats.get_users (Ok ru)
   = ( ["Error getting users: " +:+ GetFaucetStats.text ru], Ok [] ) ∧
   GetFaucetStats.get_user_wallets user_id (Ok rw)
   = ( ["Error getting wallets for user " +:+ user_id +:+ ": " +:+
        GetFaucetStats.text rw], Ok [] ) ∧
   GetFaucetStats.get_wallet_transactions wallet (Ok rp)
   = ( ["Error getting transactions for wallet " +:+
        GetFaucetStats.id wallet +:+ ": " +:+ GetFaucetStats.text rp],
       Ok [] )) ∧
  (GetFaucetStats.get_users (Raise e) = ([], Raise e) ∧
   GetFaucetStats.get_user_wallets user_id (Raise e) = ([], Raise e) ∧
   GetFaucetStats.get_wallet_transactions wallet (Raise e)
   = ([], Raise e) ∧
   GetFaucetStats.get_users
     (Ok (GetFaucetStats.mk_response 200 msg (Raise e)))
   = ([], Raise e) ∧
   GetFaucetStats.get_user_wallets user_id
     (Ok (GetFaucetStats.mk_response 200 msg (Raise e)))
   = ([], Raise e) ∧
   GetFaucetStats.get_wallet_transactions wallet
     (Ok (GetFaucetStats.mk_response 200 msg (Raise e)))
   = ([], Raise e)).
Proof.
  intros Hu Hw Hp.
  apply Z.eqb_neq in Hu, Hw, Hp.
  split; [|repeat split].
  repeat split.
  - unfold GetFaucetStats.get_users, lift, mbind, io_mbind, io_bind.
    by rewrite Hu.
  - unfold GetFaucetStats.get_user_wallets, lift, mbind, io_mbind, io_bind.
    by rewrite Hw.
  - unfold GetFaucetStats.get_wallet_transactions, lift, mbind, io_mbind,
      io_bind.
    by rewrite Hp.
Qed.

Lemma readers_on_failure_witness :
  GetFaucetStats.get_users
    (Ok (GetFaucetStats.mk_response 404 "Not Found" (Ok [])))
  = ( ["Error getting users: Not Found"%string], Ok [] ) ∧
  GetFaucetStats.get_users (Raise (RequestException "connection refused"))
  = ([], Raise (RequestException "connection refused")).
Proof.
  pose proof (readers_on_failure (utc_clock 0)
    "no such table: transactions" "u1"
    (GetFaucetStats.mk_wallet "w1" "alice" "key")
    (RequestException "connection refused")
    (GetFaucetStats.mk_response 404 "Not Found" (Ok []))
    (GetFaucetStats.mk_response 500 "Internal Server Error" (Ok []))
    (GetFaucetStats.mk_response 401 "Unauthorized" (Ok []))
    ltac:(simpl; lia) ltac:(simpl; lia) ltac:(simpl; lia))
    as [(_ & _ & Hu & _) (He & _)].
  split; [exact Hu | exact He].
Defined.

(** [requests.get] raising a connection error: [get_users] returns no
    list, the exception leaves it. *)
Lemma get_users_connection_error :
  GetFaucetStats.get_users (Raise (RequestException "connection refused"))
  = ([], Raise (RequestException "connection refused")) ∧
  ¬ (∃ records,
       (GetFaucetStats.get_users
          (Raise (RequestException "connection refused"))).2
       = Ok records).
Proof.
  split; [reflexivity|]. intros [records Hr]. discriminate Hr.
Qed.

End Readers.

(** ** The totals of [faucet_stats.py], user by user *)

Module LocalTotals.
Import Py PyFacts FaucetStats FaucetStatsFacts.

Lemma sum_app (l1 l2 : list Z) : sum (l1 ++ l2) = sum l1 + sum l2.
Proof.
  induction l1 as [|x l1 IH]; simpl.
  - rewrite sum_nil. lia.
  - rewrite !sum_cons, IH. lia.
Qed.

Lemma sum_Permutation (l1 l2 : list Z) : l1 ≡ₚ l2 → sum l1 = sum l2.
Proof.
  induction 1 as [|x l1 l2 _ IH|x y l|l1 l2 l3 _ IH1 _ IH2].
  - done.
  - by rewrite !sum_cons, IH.
  - rewrite !sum_cons. lia.
  - by rewrite IH1.
Qed.

Lemma total_of_cons key u t transactions :
  total_of key u (t :: transactions)
  = contribution key u t + total_of key u transactions.
Proof. unfold total_of. simpl. apply sum_cons. Qed.

Lemma total_of_app key u l1 l2 :
  total_of key u (l1 ++ l2) = total_of key u l1 + total_of key u l2.
Proof. unfold total_of. by rewrite map_app, sum_app. Qed.

Lemma total_of_Permutation key u l1 l2 :
  l1 ≡ₚ l2 → total_of key u l1 = total_of key u l2.
Proof.
  intros Hp. unfold total_of. apply sum_Permutation.
  by apply Permutation_map.
Qed.

(** One iteration, seen from one user. *)
Lemma step_lookups st t u :
  dict_get (distributions (analyze_step st t)) u
  = dict_get (distributions st) u + contribution sender u t ∧
  dict_get (receipts (analyze_step st t)) u
  = dict_get (receipts st) u + contribution recipient u t.
Proof.
  unfold contribution. destruct (counted t) eqn:Hc.
  - rewrite analyze_step_counted by done. simpl.
    rewrite !dict_get_dict_add. split.
    + destruct (decide (sender t = u)) as [Hu|Hu].
      * by rewrite bool_decide_eq_true_2.
      * by rewrite bool_decide_eq_false_2.
    + destruct (decide (recipient t = u)) as [Hu|Hu].
      * by rewrite bool_decide_eq_true_2.
      * by rewrite bool_decide_eq_false_2.
  - rewrite analyze_step_skipped by done. simpl. lia.
Qed.

Lemma loop_lookups st transactions u :
  dict_get (distributions (foldl analyze_step st transactions)) u
  = dict_get (distributions st) u + total_of sender u transactions ∧
  dict_get (receipts (foldl analyze_step st transactions)) u
  = dict_get (receipts st) u + total_of recipient u transactions.
Proof.
  revert st. induction transactions as [|t transactions IH]; intros st.
  - unfold total_of. simpl. rewrite sum_nil. lia.
  - cbn [foldl]. destruct (IH (analyze_step st t)) as [IHd IHr].
    destruct (step_lookups st t u) as [Hd Hr].
    rewrite IHd, IHr, Hd, Hr, !total_of_cons. lia.
Qed.

Lemma loop_balance transactions u :
  dict_get (balance (foldl analyze_step no_totals transactions)) u
  = dict_get (distributions (foldl analyze_step no_totals transactions)) u
    - dict_get (receipts (foldl analyze_step no_totals transactions)) u.
Proof.
  apply (analyze_loop_invariant (λ st,
    dict_get (balance st) u
    = dict_get (distributions st) u - dict_get (receipts st) u)).
  - reflexivity.
  - intros st t. apply balance_step.
Qed.

(** X1. The totals that [analyze_faucet_transactions] returns for a user
    are sums over the counted records: the distributed total adds the
    amounts of the counted records the user sent, the received total those
    of the counted records the user got, and the balance is the first sum
    minus the second. *)
Theorem totals_per_user (transactions : list tx) (u : string) :
  let '(distributed, received, balance) := analyze_records transactions in
  dict_get distributed u = total_of sender u transactions ∧
  dict_get received u = total_of recipient u transactions ∧
  dict_get balance u
  = total_of sender u transactions - total_of recipient u transactions.
Proof.
  unfold analyze_records.
  pose proof (loop_lookups no_totals transactions u) as [Hd Hr].
  pose proof (loop_balance transactions u) as Hb.
  simpl in Hd, Hr. rewrite Hb, Hd, Hr. done.
Qed.

(** X2. The order of the records does not matter for the amounts: two
    lists with the same records in any order give every user the same
    distributed, received and balance totals. *)
Theorem totals_order_independent (l1 l2 : list tx) (u : string) :
  l1 ≡ₚ l2 →
  let '(distributed1, received1, balance1) := analyze_records l1 in
  let '(distributed2, received2, balance2) := analyze_records l2 in
  dict_get distributed1 u = dict_get distributed2 u ∧
  dict_get received1 u = dict_get received2 u ∧
  dict_get balance1 u = dict_get balance2 u.
Proof.
  intros Hp. unfold analyze_records.
  pose proof (loop_lookups no_totals l1 u) as [Hd1 Hr1].
  pose proof (loop_lookups no_totals l2 u) as [Hd2 Hr2].
  rewrite !loop_balance, Hd1, Hr1, Hd2, Hr2.
  rewrite (total_of_Permutation sender u l1 l2 Hp).
  rewrite (total_of_Permutation recipient u l1 l2 Hp).
  done.
Qed.

Lemma totals_order_independent_witness :
  let '(distributed1, received1, balance1) :=
    analyze_records [ mk_tx "A" "B" 100 sample_time "faucet" 1 "";
                      mk_tx "B" "C" 50 sample_time "faucet" 1 "" ] in
  let '(distributed2, received2, balance2) :=
    analyze_records [ mk_tx "B" "C" 50 sample_time "faucet" 1 "";
                      mk_tx "A" "B" 100 sample_time "faucet" 1 "" ] in
  dict_get distributed1 "B" = dict_get distributed2 "B" ∧
  dict_get received1 "B" = dict_get received2 "B" ∧
  dict_get balance1 "B" = dict_get balance2 "B".
Proof.
  apply (totals_order_independent
           [ mk_tx "A" "B" 100 sample_time "faucet" 1 "";
             mk_tx "B" "C" 50 sample_time "faucet" 1 "" ]
           [ mk_tx "B" "C" 50 sample_time "faucet" 1 "";
             mk_tx "A" "B" 100 sample_time "faucet" 1 "" ] "B").
  apply Permutation_swap.
Defined.

(** X3. Running the aggregator on two lists one after the other in one
    call gives every user the sum of the totals of the two separate
    runs. *)
Theorem totals_of_concatenation (l1 l2 : list tx) (u : string) :
  let '(distributed, received, balance) := analyze_records (l1 ++ l2) in
  let '(distributed1, received1, balance1) := analyze_records l1 in
  let '(distributed2, received2, balance2) := analyze_records l2 in
  dict_get distributed u = dict_get distributed1 u + dict_get distributed2 u ∧
  dict_get received u = dict_get received1 u + dict_get received2 u ∧
  dict_get balance u = dict_get balance1 u + dict_get balance2 u.
Proof.
  unfold analyze_records.
  pose proof (loop_lookups no_totals (l1 ++ l2) u) as [Hd Hr].
  pose proof (loop_lookups no_totals l1 u) as [Hd1 Hr1].
  pose proof (loop_lookups no_totals l2 u) as [Hd2 Hr2].
  rewrite !loop_balance, Hd, Hr, Hd1, Hr1, Hd2, Hr2, !total_of_app.
  simpl. lia.
Qed.

(** X4. The balances of all users add up to zero, for every list of
    records. *)
Theorem balances_sum_to_zero (transactions : list tx) :
  let '(_, _, balance) := analyze_records transactions in
  sum (values balance) = 0.
Proof.
  unfold analyze_records.
  apply (analyze_loop_invariant (λ st, sum (values (balance st)) = 0)).
  - reflexivity.
  - intros st t Hst. destruct (counted t) eqn:Hc.
    + rewrite analyze_step_counted by done. simpl.
      rewrite !sum_values_dict_add. lia.
    + by rewrite analyze_step_skipped.
Qed.

(** X5. Records that the loop skips (a falsy success flag, a type without
    "faucet") leave no trace: the three mappings, with the order of their
    entries, are those of the list without these records. *)
Theorem skipped_records_leave_no_trace (transactions : list tx) :
  analyze_records transactions
  = analyze_records (List.filter counted transactions).
Proof.
  unfold analyze_records. generalize no_totals.
  induction transactions as [|t transactions IH]; intros st; [done|].
  cbn [foldl List.filter]. destruct (counted t) eqn:Hc.
  - cbn [foldl]. apply IH.
  - rewrite analyze_step_skipped by done. apply IH.
Qed.

(** Who gets an entry. *)
Lemma loop_keys st transactions u :
  (u ∈ keys (distributions (foldl analyze_step st transactions)) ↔
   u ∈ keys (distributions st) ∨
   ∃ t, t ∈ transactions ∧ counted t = true ∧ sender t = u) ∧
  (u ∈ keys (receipts (foldl analyze_step st transactions)) ↔
   u ∈ keys (receipts st) ∨
   ∃ t, t ∈ transactions ∧ counted t = true ∧ recipient t = u).
Proof.
  revert st. induction transactions as [|t transactions IH]; intros st.
  - cbn [foldl]. split; (split; [by left|]).
    + intros [H|(t & Ht & _)]; [done|]. by apply elem_of_nil in Ht.
    + intros [H|(t & Ht & _)]; [done|]. by apply elem_of_nil in Ht.
  - cbn [foldl]. destruct (IH (analyze_step st t)) as [IHd IHr].
    rewrite IHd, IHr. clear IHd IHr IH.
    destruct (counted t) eqn:Hc.
    + rewrite analyze_step_counted by done. simpl.
      rewrite !elem_of_keys_dict_add.
      split; split.
      * intros [[->|H]|(t' & Ht' & Hc' & Hu)]; [right|by left|right].
        -- exists t. split; [apply elem_of_cons; by left|done].
        -- exists t'. split; [apply elem_of_cons; by right|done].
      * intros [H|(t' & Ht' & Hc' & Hu)]; [left; by right|].
        apply elem_of_cons in Ht' as [->|Ht'].
        -- left. by left.
        -- right. by exists t'.
      * intros [[->|H]|(t' & Ht' & Hc' & Hu)]; [right|by left|right].
        -- exists t. split; [apply elem_of_cons; by left|done].
        -- exists t'. split; [apply elem_of_cons; by right|done].
      * intros [H|(t' & Ht' & Hc' & Hu)]; [left; by right|].
        apply elem_of_cons in Ht' as [->|Ht'].
        -- left. by left.
        -- right. by exists t'.
    + rewrite analyze_step_skipped by done.
      split; split.
      * intros [H|(t' & Ht' & Hc' & Hu)]; [by left|right].
        exists t'. split; [apply elem_of_cons; by right|done].
      * intros [H|(t' & Ht' & Hc' & Hu)]; [by left|].
        apply elem_of_cons in Ht' as [->|Ht']; [congruence|].
        right. by exists t'.
      * intros [H|(t' & Ht' & Hc' & Hu)]; [by left|right].
        exists t'. split; [apply elem_of_cons; by right|done].
      * intros [H|(t' & Ht' & Hc' & Hu)]; [by left|].
        apply elem_of_cons in Ht' as [->|Ht']; [congruence|].
        right. by exists t'.
Qed.

(** X6. A user has an entry in the distributed mapping exactly when some
    counted record names the user as sender, and an entry in the received
    mapping exactly when some counted record names the user as recipient;
    a user met only in skipped records gets no entry, and a counted record
    of amount zero gives one. *)
Theorem entry_iff_counted_record (transactions : list tx) (u : string) :
  let '(distributed, received, _) := analyze_records transactions in
  (u ∈ keys distributed ↔
   ∃ t, t ∈ transactions ∧ counted t = true ∧ sender t = u) ∧
  (u ∈ keys received ↔
   ∃ t, t ∈ transactions ∧ counted t = true ∧ recipient t = u).
Proof.
  unfold analyze_records.
  destruct (loop_keys no_totals transactions u) as [Hd Hr].
  rewrite Hd, Hr. simpl. split; split.
  - intros [H|H]; [by apply elem_of_nil in H|done].
  - intros H. by right.
  - intros [H|H]; [by apply elem_of_nil in H|done].
  - intros H. by right.
Qed.

Lemma contribution_nonneg key u t :
  (counted t = true → 0 ≤ amount t) → 0 ≤ contribution key u t.
Proof.
  unfold contribution. intros Ht.
  destruct (counted t); simpl; [|lia].
  destruct (bool_decide (key t = u)); [by apply Ht|lia].
Qed.

Lemma total_of_nonneg key u transactions :
  Forall (λ t, counted t = true → 0 ≤ amount t) transactions →
  0 ≤ total_of key u transactions.
Proof.
  induction 1 as [|t transactions Ht _ IH].
  - unfold total_of. simpl. by rewrite sum_nil.
  - rewrite total_of_cons.
    pose proof (contribution_nonneg key u t Ht). lia.
Qed.

(** X7. When no counted record has a negative amount, no distributed or
    received total is negative, and the balance of a user is at most the
    distributed total and at least minus the received total of the
    user. *)
Theorem totals_bounds (transactions : list tx) (u : string) :
  Forall (λ t, counted t = true → 0 ≤ amount t) transactions →
  let '(distributed, received, balance) := analyze_records transactions in
  0 ≤ dict_get distributed u ∧ 0 ≤ dict_get received u ∧
  - dict_get received u ≤ dict_get balance u ≤ dict_get distributed u.
Proof.
  intros Hpos. unfold analyze_records.
  pose proof (loop_lookups no_totals transactions u) as [Hd Hr].
  pose proof (total_of_nonneg sender u transactions Hpos).
  pose proof (total_of_nonneg recipient u transactions Hpos).
  rewrite loop_balance, Hd, Hr. simpl. lia.
Qed.

Lemma totals_bounds_witness :
  let '(distributed, received, balance) :=
    analyze_records [ mk_tx "A" "B" 100 sample_time "faucet" 1 "";
                      mk_tx "B" "C" 50 sample_time "faucet" 1 "";
                      mk_tx "C" "A" (-7) sample_time "refund" 1 "" ] in
  0 ≤ dict_get distributed "B" ∧ 0 ≤ dict_get received "B" ∧
  - dict_get received "B" ≤ dict_get balance "B" ≤ dict_get distributed "B".
Proof.
  apply (totals_bounds
           [ mk_tx "A" "B" 100 sample_time "faucet" 1 "";
             mk_tx "B" "C" 50 sample_time "faucet" 1 "";
             mk_tx "C" "A" (-7) sample_time "refund" 1 "" ] "B").
  repeat constructor; simpl; intros; first [lia | discriminate].
Defined.

(** The rows of the reader, seen by the loop. *)
Lemma total_of_counted key u transactions :
  Forall (λ t, counted t = true) transactions →
  total_of key u transactions
  = sum (map amount
           (List.filter (λ t, bool_decide (key t = u)) transactions)).
Proof.
  induction 1 as [|t transactions Ht _ IH]; [done|].
  rewrite total_of_cons, IH. unfold contribution. rewrite Ht.
  cbn [List.filter andb].
  destruct (bool_decide (key t = u)); simpl.
  - by rewrite sum_cons.
  - lia.
Qed.

Lemma loop_distributed_sum st transactions :
  Forall (λ t, counted t = true) transactions →
  sum (values (distributions (foldl analyze_step st transactions)))
  = sum (values (distributions st)) + sum (map amount transactions).
Proof.
  intros Hall. revert st.
  induction Hall as [|t transactions Ht _ IH]; intros st.
  - simpl. rewrite sum_nil. lia.
  - cbn [foldl]. rewrite IH, analyze_step_counted by done. simpl.
    rewrite sum_values_dict_add, sum_cons. lia.
Qed.

(** X8. On the rows that the reader returns the two tests of the loop
    never skip anything: the aggregator called after the reader counts
    every selected row, so the distributed total of a user is the sum of
    the amounts of the selected rows the user sent, the received total the
    sum over the selected rows the user got, and all that was distributed
    is the sum of the amounts of all selected rows. *)
Theorem totals_of_selected_rows (now : clock) (rows : list tx) (u : string) :
  let selected := List.filter (where_clause (twelve_months_ago now)) rows in
  analyze_faucet_transactions now (Some (Transactions rows))
  = ([], Ok (analyze_records selected)) ∧
  let '(distributed, received, _) := analyze_records selected in
  dict_get distributed u
  = sum (map amount (List.filter (λ t, bool_decide (sender t = u)) selected))
  ∧
  dict_get received u
  = sum (map amount
           (List.filter (λ t, bool_decide (recipient t = u)) selected)) ∧
  sum (values distributed) = sum (map amount selected).
Proof.
  cbn zeta. split; [reflexivity|].
  assert (Forall (λ t, counted t = true)
            (List.filter (where_clause (twelve_months_ago now)) rows))
    as Hall.
  { apply Forall_forall. intros t Ht.
    apply list_elem_of_In, filter_In in Ht as [_ Ht].
    by apply where_clause_counted in Ht. }
  unfold analyze_records.
  pose proof (loop_lookups no_totals
    (List.filter (where_clause (twelve_months_ago now)) rows) u) as [Hd Hr].
  rewrite Hd, Hr, loop_distributed_sum by done.
  rewrite !total_of_counted by done. simpl.
  rewrite sum_nil. split; [lia|]. split; lia.
Qed.

End LocalTotals.

(** ** The user lookup and [main] of [faucet_stats.py] *)

Module LocalLookup.
Import Py PyFacts FaucetStats.

Lemma head_filter_first {A : Type} (f : A → bool) (l : list A) :
  match head (List.filter f l) with
  | Some x =>
      f x = true ∧
      ∃ before after,
        l = before ++ x :: after ∧ Forall (λ y, f y = false) before
  | None => Forall (λ y, f y = false) l
  end.
Proof.
  induction l as [|y l IH]; [by constructor|].
  cbn [List.filter]. destruct (f y) eqn:Hy.
  - simpl. split; [done|]. exists [], l. split; [done|constructor].
  - destruct (head (List.filter f l)) as [x|].
    + destruct IH as (Hx & before & after & -> & Hbefore).
      split; [done|]. exists (y :: before), after.
      split; [done|]. by constructor.
    + by constructor.
Qed.

Lemma user_matches_true user_id row :
  user_matches user_id row = true ↔
  name row = Some user_id ∨ telegram_username row = Some user_id.
Proof.
  unfold user_matches.
  rewrite orb_true_iff, !bool_decide_eq_true. done.
Qed.

Lemma user_matches_false user_id row :
  user_matches user_id row = false ↔
  name row ≠ Some user_id ∧ telegram_username row ≠ Some user_id.
Proof.
  unfold user_matches.
  rewrite orb_false_iff, !bool_decide_eq_false. done.
Qed.

(** X9. When the users file opens and the query runs,
    [get_user_info_from_sqlite] prints nothing and raises nothing, in
    whatever order SQLite visits the rows of the table: it returns [None]
    exactly when no row of the table has the asked id as its name or as
    its Telegram handle, and otherwise one of the rows that have it; a row
    whose two columns are [NULL] never matches.  Which of several
    matching rows comes back is left to SQLite. *)
Theorem user_info_found_iff (user_id : string)
    (rows visited : list user_row) :
  visited ≡ₚ rows →
  ∃ found,
    get_user_info_from_sqlite user_id (Some (Users visited))
    = ([], Ok found) ∧
    match found with
    | Some row =>
        row ∈ rows ∧
        (name row = Some user_id ∨ telegram_username row = Some user_id)
    | None =>
        Forall (λ r, name r ≠ Some user_id ∧
                     telegram_username r ≠ Some user_id) rows
    end.
Proof.
  intros Hperm.
  exists (head (List.filter (user_matches user_id) visited)).
  split; [reflexivity|].
  pose proof (head_filter_first (user_matches user_id) visited) as Hhead.
  destruct (head (List.filter (user_matches user_id) visited)) as [row|].
  - destruct Hhead as (Hrow & before & after & Hrows & _).
    split; [|by apply user_matches_true].
    rewrite <- Hperm, Hrows.
    apply elem_of_app. right. apply elem_of_cons. by left.
  - rewrite <- Hperm. eapply Forall_impl; [exact Hhead|].
    intros r Hr. by apply user_matches_false.
Qed.

Lemma user_info_found_iff_witness :
  ∃ found,
    get_user_info_from_sqlite "bob"
      (Some (Users
               [ mk_user_row (Some "42"%string) (Some "bob"%string)
                   None None None;
                 mk_user_row (Some "bob"%string) None None None None ]))
    = ([], Ok found) ∧
    match found with
    | Some row =>
        row ∈ [ mk_user_row (Some "bob"%string) None None None None;
                mk_user_row (Some "42"%string) (Some "bob"%string)
                  None None None ] ∧
        (name row = Some "bob"%string ∨
         telegram_username row = Some "bob"%string)
    | None =>
        Forall (λ r, name r ≠ Some "bob"%string ∧
                     telegram_username r ≠ Some "bob"%string)
          [ mk_user_row (Some "bob"%string) None None None None;
            mk_user_row (Some "42"%string) (Some "bob"%string)
              None None None ]
    end.
Proof.
  apply (user_info_found_iff "bob"
           [ mk_user_row (Some "bob"%string) None None None None;
             mk_user_row (Some "42"%string) (Some "bob"%string)
               None None None ]
           [ mk_user_row (Some "42"%string) (Some "bob"%string)
               None None None;
             mk_user_row (Some "bob"%string) None None None None ]).
  apply Permutation_swap.
Defined.

(** X10. Whatever the state of the users file, a row that
    [get_user_info_from_sqlite] returns is a row of the table that matches
    the asked id, and nothing was printed; a message is printed only
    together with the result [None], and then it is the only line. *)
Theorem user_info_sound (user_id : string) (file : option users_file)
    (out : output) (found : option user_row) :
  get_user_info_from_sqlite user_id file = (out, Ok found) →
  match found with
  | Some row =>
      out = [] ∧
      (name row = Some user_id ∨ telegram_username row = Some user_id) ∧
      ∃ rows, file = Some (Users rows) ∧ row ∈ rows
  | None => (List.length out ≤ 1)%nat
  end.
Proof.
  destruct file as [[msg|msg|rows]|]; simpl; intros Heq;
    inversion Heq; subst; clear Heq; simpl; try lia.
  pose proof (head_filter_first (user_matches user_id) rows) as Hhead.
  destruct (head (List.filter (user_matches user_id) rows)) as [row|];
    [|simpl; lia].
  destruct Hhead as (Hrow & before & after & -> & _).
  split; [done|]. split; [by apply user_matches_true|].
  eexists. split; [done|].
  apply elem_of_app. right. apply elem_of_cons. by left.
Qed.

Lemma user_info_sound_witness :
  ([] : output) = [] ∧
  (name (mk_user_row (Some "42"%string) (Some "bob"%string) None None None)
   = Some "bob"%string ∨
   telegram_username
     (mk_user_row (Some "42"%string) (Some "bob"%string) None None None)
   = Some "bob"%string) ∧
  ∃ rows,
    Some (Users
            [ mk_user_row (Some "7"%string) None None None None;
              mk_user_row (Some "42"%string) (Some "bob"%string)
                None None None ])
    = Some (Users rows) ∧
    mk_user_row (Some "42"%string) (Some "bob"%string) None None None
    ∈ rows.
Proof.
  apply (user_info_sound "bob"
           (Some (Users
                    [ mk_user_row (Some "7"%string) None None None None;
                      mk_user_row (Some "42"%string) (Some "bob"%string)
                        None None None ]))
           []
           (Some (mk_user_row (Some "42"%string) (Some "bob"%string)
                    None None None))).
  reflexivity.
Defined.

(** X11. [main] of [faucet_stats.py] stops with an exception exactly when
    [sqlite3.connect] raises, and then only its first line was printed.
    In every other state of the transactions file it returns normally
    after printing its first line, at most one error line, the heading,
    the rule of 50 dashes and three reports. *)
Theorem main_outcome (fmt : Z → string) (now : clock)
    (file : option db_file) :
  match file with
  | Some (Unopenable msg) =>
      main fmt now file
      = (["Fetching faucet statistics..."%string], Raise (Sqlite3Error msg))
  | _ =>
      ∃ log reports,
        main fmt now file
        = ( ["Fetching faucet statistics..."%string] ++ log ++
            [ nl +:+ "Faucet Statistics for the Last 7 Days:";
              repeat_str "-" 50 ] ++ reports, Ok tt ) ∧
        (List.length log ≤ 1)%nat ∧ List.length reports = 3%nat
  end.
Proof.
  destruct file as [[msg|msg|rows]|].
  - reflexivity.
  - eexists [_], [_; _; _]. split; [reflexivity|]. simpl. lia.
  - exists [].
    destruct (analyze_records
                (List.filter (where_clause (twelve_months_ago now)) rows))
      as [[d r] b] eqn:Hres.
    eexists [_; _; _]. split; [|simpl; lia].
    unfold main, analyze_faucet_transactions, get_transactions_from_sqlite.
    unfold mbind, mret, io_mbind, io_mret, io_bind, io_ret, print.
    rewrite Hres. reflexivity.
  - eexists [_], [_; _; _]. split; [reflexivity|]. simpl. lia.
Qed.

End LocalLookup.

(** ** [get_telegram_username] on wallet names *)

Module Username.
Import Py PyFacts GetFaucetStats GetFaucetStatsFacts.

(** *** Prefixes and occurrences *)

Lemma prefix_empty_l (s : string) : String.prefix "" s = true.
Proof. by destruct s. Qed.

Lemma prefix_cons (a b : ascii) (s1 s2 : string) :
  String.prefix (String a s1) (String b s2)
  = if ascii_dec a b then String.prefix s1 s2 else false.
Proof. reflexivity. Qed.

Lemma prefix_app_self (sep rest : string) :
  String.prefix sep (sep +:+ rest) = true.
Proof.
  induction sep as [|a sep IH]; [apply prefix_empty_l|].
  rewrite app_cons. simpl. by destruct (ascii_dec a a).
Qed.

Lemma drop_chars_app_self (sep rest : string) :
  drop_chars (String.length sep) (sep +:+ rest) = rest.
Proof. induction sep as [|a sep IH]; [done|]. rewrite app_cons. apply IH. Qed.

Lemma prefix_app_l (sep a b : string) :
  String.prefix sep a = true → String.prefix sep (a +:+ b) = true.
Proof.
  revert a. induction sep as [|x sep IH]; intros a Ha.
  - apply prefix_empty_l.
  - destruct a as [|y a]; [done|]. rewrite app_cons. simpl in *.
    destruct (ascii_dec x y); [by apply IH|done].
Qed.

Lemma contains_app_l (sep a b : string) :
  contains sep a = true → contains sep (a +:+ b) = true.
Proof.
  induction a as [|c a IH]; intros Ha.
  - rewrite contains_empty in Ha. apply contains_prefix.
    destruct sep; [apply prefix_empty_l|done].
  - rewrite contains_cons in Ha. apply orb_true_iff in Ha as [Ha|Ha].
    + apply contains_prefix. by apply (prefix_app_l sep (String c a) b).
    + rewrite app_cons, contains_cons, IH by done. apply orb_true_r.
Qed.

Lemma contains_app_r (sep a b : string) :
  contains sep b = true → contains sep (a +:+ b) = true.
Proof.
  intros Hb. induction a as [|c a IH]; [done|].
  rewrite app_cons, contains_cons, IH. apply orb_true_r.
Qed.

(** The marker ["(@"]: whether it starts a string depends on the first
    two characters only. *)
Lemma marker_prefix_deep (c d : ascii) (x y : string) :
  String.prefix "(@" (String c (String d x))
  = String.prefix "(@" (String c (String d y)).
Proof.
  rewrite !prefix_cons. destruct (ascii_dec "(" c); [|done].
  destruct (ascii_dec "@" d); [|done]. by rewrite !prefix_empty_l.
Qed.

Lemma marker_prefix_app (c : ascii) (pre x : string) :
  String.prefix "@" x = false →
  String.prefix "(@" (String c pre) = false →
  String.prefix "(@" (String c (pre +:+ x)) = false.
Proof.
  intros Hx Hpre. destruct pre as [|d pre].
  - rewrite app_empty_l. destruct x as [|e x]; [done|].
    rewrite !prefix_cons in *. destruct (ascii_dec "(" c); [|done].
    destruct (ascii_dec "@" e); [|done]. by rewrite prefix_empty_l in Hx.
  - rewrite app_cons. by rewrite (marker_prefix_deep c d _ pre).
Qed.

Lemma no_marker_app (a x : string) :
  String.prefix "@" x = false →
  contains "(@" a = false → contains "(@" x = false →
  contains "(@" (a +:+ x) = false.
Proof.
  intros Hx Ha Hc. induction a as [|c a IH]; [done|].
  rewrite contains_cons in Ha. apply orb_false_iff in Ha as [Hp Ha].
  rewrite app_cons, contains_cons, IH by done.
  by rewrite marker_prefix_app.
Qed.

(** A name cut at its first marker. *)
Lemma marker_first (pre rest : string) :
  contains "(@" pre = false →
  contains "(@" (pre +:+ "(@" +:+ rest) = true ∧
  text_before "(@" (pre +:+ "(@" +:+ rest) = pre ∧
  text_after "(@" (pre +:+ "(@" +:+ rest) = rest.
Proof.
  intros Hpre. split.
  { apply contains_app_r, contains_prefix, prefix_app_self. }
  induction pre as [|c pre IH].
  - rewrite app_empty_l.
    pose proof (prefix_app_self "(@" rest) as Hself.
    destruct rest; split; reflexivity.
  - rewrite contains_cons in Hpre.
    apply orb_false_iff in Hpre as [Hp Hpre].
    rewrite app_cons, text_before_cons, text_after_cons.
    rewrite marker_prefix_app by done.
    destruct (IH Hpre) as [-> ->]. done.
Qed.

(** *** Stripping *)

Lemma lstrip_cons (chars : string) (c : ascii) (s : string) :
  lstrip chars (String c s)
  = if mem_char c chars then lstrip chars s else String c s.
Proof. reflexivity. Qed.

Lemma rstrip_cons (chars : string) (c : ascii) (s : string) :
  rstrip chars (String c s)
  = match rstrip chars s with
    | EmptyString => if mem_char c chars then EmptyString
                     else String c EmptyString
    | r => String c r
    end.
Proof. reflexivity. Qed.

Lemma rstrip_app_close (v : string) :
  rstrip ")" (v +:+ ")") = rstrip ")" v.
Proof.
  induction v as [|c v IH]; [reflexivity|].
  by rewrite app_cons, !rstrip_cons, IH.
Qed.

Lemma lstrip_app_close (u : string) :
  lstrip ")" (u +:+ ")")
  = match lstrip ")" u with
    | EmptyString => EmptyString
    | r => r +:+ ")"
    end.
Proof.
  induction u as [|c u IH]; [reflexivity|].
  rewrite app_cons, !lstrip_cons.
  destruct (mem_char c ")"); [exact IH|done].
Qed.

Lemma strip_app_close (u : string) : strip ")" (u +:+ ")") = strip ")" u.
Proof.
  unfold strip. rewrite lstrip_app_close.
  destruct (lstrip ")" u) as [|a r]; [done|].
  apply rstrip_app_close.
Qed.

(** X12. A wallet name made of any text without marker, the marker
    ["(@"], a user name without marker and a closing parenthesis, such as
    ["123456789 (@username)"], gives the user name with the parentheses at
    its two ends removed, so the user name itself when it neither starts
    nor ends with a closing parenthesis. *)
Theorem username_of_marked_name (pre u : string) :
  contains "(@" pre = false →
  contains "(@" u = false →
  get_telegram_username (pre +:+ "(@" +:+ u +:+ ")")
  = Ok (Some (strip ")" u)).
Proof.
  intros Hpre Hu. rewrite get_telegram_username_eq.
  destruct (marker_first pre (u +:+ ")") Hpre) as (-> & _ & ->).
  assert (contains ")" (pre +:+ "(@" +:+ u +:+ ")") = true) as ->.
  { do 3 apply contains_app_r. reflexivity. }
  simpl andb. cbv iota.
  rewrite text_before_absent by (by apply no_marker_app).
  by rewrite strip_app_close.
Qed.

Lemma username_of_marked_name_witness :
  get_telegram_username ("123456789 " +:+ "(@" +:+ "username" +:+ ")")
  = Ok (Some (strip ")" "username")).
Proof.
  apply (username_of_marked_name "123456789 " "username"); reflexivity.
Defined.

(** *** What stripping leaves *)

Lemma lstrip_first (chars s : string) :
  match lstrip chars s with
  | EmptyString => True
  | String c _ => mem_char c chars = false
  end.
Proof.
  induction s as [|c s IH]; [done|].
  rewrite lstrip_cons. by destruct (mem_char c chars) eqn:Hc.
Qed.

Lemma rstrip_first (chars s : string) :
  match rstrip chars s with
  | EmptyString => True
  | String c _ => ∃ s', s = String c s'
  end.
Proof.
  destruct s as [|c s]; [done|]. rewrite rstrip_cons.
  destruct (rstrip chars s); [destruct (mem_char c chars)|]; eauto.
Qed.

Lemma rstrip_last (chars s : string) (c : ascii) :
  String.get (String.length (rstrip chars s) - 1) (rstrip chars s) = Some c →
  mem_char c chars = false.
Proof.
  induction s as [|a s IH]; [done|].
  rewrite rstrip_cons. destruct (rstrip chars s) as [|d r] eqn:Hr.
  - destruct (mem_char a chars) eqn:Ha; [done|].
    simpl. intros [= <-]. done.
  - cbn [String.length]. rewrite Nat.sub_succ, Nat.sub_0_r.
    cbn [String.get String.length] in *.
    rewrite Nat.sub_succ, Nat.sub_0_r in IH. done.
Qed.

Lemma rstrip_is_prefix (chars s : string) :
  ∃ tail, s = rstrip chars s +:+ tail.
Proof.
  induction s as [|c s [tail IH]]; [by exists EmptyString|].
  rewrite rstrip_cons. destruct (rstrip chars s) as [|d r].
  - destruct (mem_char c chars).
    + by exists (String c s).
    + exists s. by rewrite app_cons, app_empty_l.
  - exists tail. by rewrite app_cons, <- IH.
Qed.

Lemma contains_lstrip (sep chars s : string) :
  contains sep (lstrip chars s) = true → contains sep s = true.
Proof.
  induction s as [|c s IH]; [done|].
  rewrite lstrip_cons. destruct (mem_char c chars); [|done].
  intros H. rewrite contains_cons, IH by done. apply orb_true_r.
Qed.

Lemma contains_rstrip (sep chars s : string) :
  contains sep (rstrip chars s) = true → contains sep s = true.
Proof.
  intros H. destruct (rstrip_is_prefix chars s) as [tail Hs].
  rewrite Hs. by apply contains_app_l.
Qed.

Lemma text_before_is_prefix (sep s : string) :
  ∃ rest, s = text_before sep s +:+ rest.
Proof.
  destruct (contains sep s) eqn:Hc.
  - eexists. by apply text_before_after.
  - exists EmptyString. by rewrite text_before_absent, app_empty_r.
Qed.

Lemma contains_text_before (sep s : string) :
  sep ≠ EmptyString → contains sep (text_before sep s) = false.
Proof.
  intros Hsep. induction s as [|c s IH].
  - unfold text_before. destruct (String.prefix sep "") eqn:Hp.
    + by rewrite prefix_empty_r in Hp.
    + by rewrite contains_empty.
  - rewrite text_before_cons.
    destruct (String.prefix sep (String c s)) eqn:Hp.
    + rewrite contains_empty. by apply prefix_empty_r.
    + rewrite contains_cons, IH, orb_false_r.
      destruct (String.prefix sep (String c (text_before sep s))) eqn:Hq;
        [|done].
      destruct (text_before_is_prefix sep s) as [rest Hs].
      apply (prefix_app_l _ _ rest) in Hq.
      rewrite app_cons, <- Hs in Hq. congruence.
Qed.

(** The name after the extraction, in the case of the two markers. *)
Lemma stripped_piece_no_marker (s : string) :
  contains "(@" (strip ")" (text_before "(@" (text_after "(@" s))) = false.
Proof.
  destruct (contains "(@" (strip ")" (text_before "(@" (text_after "(@" s))))
    eqn:Hc; [|done].
  unfold strip in Hc.
  apply contains_rstrip, contains_lstrip in Hc.
  by rewrite contains_text_before in Hc.
Qed.

(** X13. When the wallet name holds the two markers, the user name that
    [get_telegram_username] returns neither starts nor ends with a closing
    parenthesis, and it holds no marker ["(@"]. *)
Theorem username_is_stripped (wallet_name username : string) :
  contains "(@" wallet_name = true →
  contains ")" wallet_name = true →
  get_telegram_username wallet_name = Ok (Some username) →
  (∀ c, String.get 0 username = Some c → c ≠ ")"%char) ∧
  (∀ c, String.get (String.length username - 1) username = Some c →
        c ≠ ")"%char) ∧
  contains "(@" username = false.
Proof.
  intros Hm Hp. rewrite get_telegram_username_eq, Hm, Hp.
  simpl andb. cbv iota. intros [= <-].
  split; [|split; [|apply stripped_piece_no_marker]].
  - intros c Hc ->. unfold strip in Hc.
    pose proof (rstrip_first ")"
      (lstrip ")" (text_before "(@" (text_after "(@" wallet_name)))) as Hr.
    destruct (rstrip ")"
      (lstrip ")" (text_before "(@" (text_after "(@" wallet_name))))
      as [|a r]; [done|].
    simpl in Hc. injection Hc as ->. destruct Hr as [s' Hs'].
    pose proof (lstrip_first ")"
      (text_before "(@" (text_after "(@" wallet_name))) as Hl.
    rewrite Hs' in Hl. done.
  - intros c Hc ->. unfold strip in Hc.
    by apply rstrip_last in Hc.
Qed.

Lemma username_is_stripped_witness :
  (∀ c, String.get 0 "a)b" = Some c → c ≠ ")"%char) ∧
  (∀ c, String.get (String.length "a)b" - 1) "a)b" = Some c →
        c ≠ ")"%char) ∧
  contains "(@" "a)b" = false.
Proof.
  apply (username_is_stripped "7 (@))a)b))" "a)b"); reflexivity.
Defined.

(** X14. [get_telegram_username] applied to its own result gives the
    result again: a user name once extracted is stable. *)
Theorem username_idempotent (wallet_name : string) :
  ∃ username,
    get_telegram_username wallet_name = Ok (Some username) ∧
    get_telegram_username username = Ok (Some username).
Proof.
  eexists. split; [apply get_telegram_username_eq|].
  rewrite get_telegram_username_eq.
  destruct (contains "(@" wallet_name && contains ")" wallet_name) eqn:Hc.
  - by rewrite stripped_piece_no_marker.
  - by rewrite Hc.
Qed.

End Username.

(** ** The totals of [get_faucet_stats.py], user by user *)

Module ApiTotals.
Import Py PyFacts GetFaucetStats GetFaucetStatsFacts.

(** One payment, seen from one user. *)
Lemma payment_lookups now username st p u :
  dict_get (payment_step now username st p).1 u
  = dict_get st.1 u + contribution now true u (username, p) ∧
  dict_get (payment_step now username st p).2 u
  = dict_get st.2 u + contribution now false u (username, p).
Proof.
  unfold contribution. cbn [fst snd].
  destruct (counted now p) eqn:Hc.
  - rewrite payment_step_counted by done.
    destruct (default false (out p)); cbn [fst snd andb];
      rewrite dict_get_dict_add;
      (destruct (decide (username = u)) as [Hu|Hu];
       [rewrite (bool_decide_eq_true_2 _ Hu)
       |rewrite (bool_decide_eq_false_2 _ Hu)]);
      rewrite ?bool_decide_eq_true_2, ?bool_decide_eq_false_2 by done;
      simpl; lia.
  - rewrite payment_step_skipped by done. simpl. lia.
Qed.

Lemma payments_lookups now username st ps u :
  dict_get (foldl (payment_step now username) st ps).1 u
  = dict_get st.1 u
    + sum (map (contribution now true u) (map (pair username) ps)) ∧
  dict_get (foldl (payment_step now username) st ps).2 u
  = dict_get st.2 u
    + sum (map (contribution now false u) (map (pair username) ps)).
Proof.
  revert st. induction ps as [|p ps IH]; intros st.
  - simpl. rewrite sum_nil. lia.
  - cbn [foldl map].
    destruct (IH (payment_step now username st p)) as [IH1 IH2].
    destruct (payment_lookups now username st p u) as [H1 H2].
    rewrite IH1, IH2, H1, H2, !sum_cons. lia.
Qed.

(** The loop over the payments of a wallet, by its first exception. *)
Lemma payments_loop_error now username st ps e :
  first_error now ps = Some e → payments_loop now username st ps = Raise e.
Proof.
  revert st. induction ps as [|p ps IH]; intros st; [done|].
  cbn [first_error payments_loop].
  rewrite (payment_raises_eq now username st p).
  destruct (payment_body now username st p) as [st'|e'].
  - apply IH.
  - by intros [= ->].
Qed.

Lemma payments_loop_no_error now username st ps :
  first_error now ps = None →
  payments_loop now username st ps
  = Ok (foldl (payment_step now username) st ps).
Proof.
  revert st. induction ps as [|p ps IH]; intros st; [done|].
  cbn [first_error payments_loop foldl].
  rewrite (payment_raises_eq now username st p). unfold payment_step.
  destruct (payment_body now username st p) as [st'|e']; [apply IH|done].
Qed.

Lemma first_error_app now l1 l2 :
  first_error now (l1 ++ l2)
  = match first_error now l1 with
    | Some e => Some e
    | None => first_error now l2
    end.
Proof.
  induction l1 as [|p l1 IH]; [done|]. cbn [app first_error].
  by destruct (payment_raises now p).
Qed.

Lemma map_snd_pair {A B : Type} (a : A) (l : list B) :
  map snd (map (pair a) l) = l.
Proof. induction l as [|x l IH]; [done|]. simpl. by rewrite IH. Qed.

Lemma wallets_lookups now all_transactions all_wallets st u :
  match first_error now
          (map snd (tagged_payments all_transactions all_wallets)) with
  | Some e =>
      foldl (wallet_step now all_transactions) (Ok st) all_wallets = Raise e
  | None =>
      ∃ st',
        foldl (wallet_step now all_transactions) (Ok st) all_wallets
        = Ok st' ∧
        dict_get st'.1 u
        = dict_get st.1 u
          + sum (map (contribution now true u)
                   (tagged_payments all_transactions all_wallets)) ∧
        dict_get st'.2 u
        = dict_get st.2 u
          + sum (map (contribution now false u)
                   (tagged_payments all_transactions all_wallets))
  end.
Proof.
  revert st. induction all_wallets as [|entry all_wallets IH]; intros st.
  - exists st. simpl. rewrite sum_nil. split; [done|]. lia.
  - cbn [foldl]. rewrite wallet_step_eq.
    unfold tagged_payments in *. cbn [flat_map].
    rewrite map_app, first_error_app, map_snd_pair.
    destruct (first_error now (store_get all_transactions entry.1 []))
      as [e|] eqn:Hfirst.
    + rewrite (payments_loop_error _ _ _ _ _ Hfirst).
      apply wallets_after_raise.
    + rewrite (payments_loop_no_error _ _ _ _ Hfirst).
      specialize (IH (foldl (payment_step now (username_of entry.2)) st
                        (store_get all_transactions entry.1 []))).
      destruct (first_error now
                  (map snd
                     (flat_map
                        (λ entry : string * wallet,
                           map (pair (username_of entry.2))
                             (store_get all_transactions entry.1 []))
                        all_wallets))) as [e|]; [exact IH|].
      destruct IH as (st' & Hst' & H1 & H2).
      exists st'. split; [exact Hst'|].
      destruct (payments_lookups now (username_of entry.2) st
                  (store_get all_transactions entry.1 []) u) as [P1 P2].
      rewrite !map_app, !LocalTotals.sum_app, H1, H2, P1, P2. lia.
Qed.

(** X15. [analyze_faucet_transactions] of [get_faucet_stats.py] goes
    through the payments listed for the wallets of [all_wallets], in the
    order of the wallets.  It raises when the body of its loop raises on
    one of them, on a memo that is not a string or, for a memo that names
    the faucet, on a time that [datetime.fromtimestamp] refuses, and the
    exception is that of the first such payment.  Otherwise it returns, and
    the totals for a user name are sums over these payments, each under
    the user name of its wallet: the distributed total adds the amounts of
    the counted outgoing payments, the received total those of the counted
    other payments.  Wallets that carry the same user name are added up, a
    wallet without a list of payments adds nothing, and lists of payments
    of unknown wallets are not read. *)
Theorem api_totals_per_user (now : clock)
    (all_transactions : list (string * list payment))
    (all_wallets : list (string * wallet)) (u : option string) :
  match first_error now
          (map snd (tagged_payments all_transactions all_wallets)) with
  | Some e =>
      analyze_faucet_transactions now all_transactions all_wallets = Raise e
  | None =>
      ∃ distributed received,
        analyze_faucet_transactions now all_transactions all_wallets
        = Ok (distributed, received) ∧
        dict_get distributed u
        = sum (map (contribution now true u)
                 (tagged_payments all_transactions all_wallets)) ∧
        dict_get received u
        = sum (map (contribution now false u)
                 (tagged_payments all_transactions all_wallets))
  end.
Proof.
  unfold analyze_faucet_transactions.
  pose proof (wallets_lookups now all_transactions all_wallets no_totals u)
    as H.
  destruct (first_error now
              (map snd (tagged_payments all_transactions all_wallets)))
    as [e|]; [exact H|].
  destruct H as ([d r] & Hst & H1 & H2).
  exists d, r. split; [exact Hst|]. simpl in *. split; lia.
Qed.

(** The payments on which the body raises: a memo that is not a string,
    or a memo that names the faucet with a time that [fromtimestamp]
    refuses. *)
Lemma payment_raises_iff now p e :
  payment_raises now p = Some e ↔
  (memo p = Some MemoOther ∧
   e = AttributeError "object has no attribute 'lower'") ∨
  (∃ lowered, memo_lower p = Ok lowered ∧
              contains "faucet" lowered = true ∧
              fromtimestamp now (time p) = Raise e).
Proof.
  unfold payment_raises, payment_body, memo_lower.
  destruct (memo p) as [[s|]|].
  - destruct (contains "faucet" (lower s)) eqn:Hc; simpl.
    + destruct (fromtimestamp now (time p)) as [t|e'] eqn:Ht.
      * destruct (t <? twelve_months_ago now);
          [|destruct (default false (out p))];
          (split; [done|]);
          intros [[? _]|(l & _ & _ & ?)]; done.
      * split.
        -- intros [= ->]. right. by exists (lower s).
        -- intros [[? _]|(l & _ & _ & [= ->])]; done.
    + split; [done|].
      intros [[? _]|(l & [= <-] & Hl & _)]; [done|congruence].
  - split.
    + intros [= <-]. by left.
    + intros [[_ ->]|(l & ? & _)]; done.
  - simpl. split; [done|].
    intros [[? _]|(l & [= <-] & Hl & _)]; done.
Qed.

(** A payment that is not counted, because its memo does not name the
    faucet or because it is older than 365 days, adds nothing. *)
Lemma contribution_uncounted now outgoing u tagged :
  counted now tagged.2 = false → contribution now outgoing u tagged = 0.
Proof. unfold contribution. by intros ->. Qed.

End ApiTotals.

(** ** What [main] of [get_faucet_stats.py] collects *)

Module ApiCollect.
Import Py PyFacts GetFaucetStats.

(** A sequence of two steps ends normally when both do. *)
Lemma io_bind_Ok {A B : Type} (m : io A) (f : A → io B)
    (out : output) (b : B) :
  (x ← m; f x) = (out, Ok b) →
  ∃ o1 a o2, m = (o1, Ok a) ∧ f a = (o2, Ok b) ∧ out = o1 ++ o2.
Proof.
  unfold mbind, io_mbind, io_bind.
  destruct m as [o1 [a|e]]; [|discriminate].
  destruct (f a) as [o2 r] eqn:Hf. intros [= <- ->]. by exists o1, a, o2.
Qed.

(** A property that every iteration keeps holds when the loop ends
    normally. *)
Lemma for_each_invariant {A S : Type} (I : S → Prop)
    (body : S → A → io S) (l : list A) :
  (∀ s x o s', I s → body s x = (o, Ok s') → I s') →
  ∀ s out s', I s → for_each body l s = (out, Ok s') → I s'.
Proof.
  intros Hbody. induction l as [|x l IH]; intros s out s' Hs Hrun.
  - cbn [for_each] in Hrun. by injection Hrun as _ <-.
  - cbn [for_each] in Hrun.
    apply io_bind_Ok in Hrun as (o1 & s1 & o2 & Hx & Hl & _).
    eapply IH; [|exact Hl]. by eapply Hbody.
Qed.

Section Stores.
Variable api : lnbits.

Lemma elem_of_keys_store_set {V : Type} (d : list (string * V)) k v u :
  u ∈ map fst (store_set d k v) ↔ u = k ∨ u ∈ map fst d.
Proof.
  induction d as [|[k' v'] d IH]; simpl.
  - rewrite list_elem_of_singleton, elem_of_nil. tauto.
  - destruct (decide (k' = k)) as [->|Hne]; simpl.
    + rewrite !elem_of_cons. tauto.
    + rewrite !elem_of_cons, IH. tauto.
Qed.

Lemma NoDup_keys_store_set {V : Type} (d : list (string * V)) k v :
  NoDup (map fst d) → NoDup (map fst (store_set d k v)).
Proof.
  induction d as [|[k' v'] d IH]; simpl; intros Hnd.
  - apply NoDup_singleton.
  - apply NoDup_cons in Hnd as [Hnotin Hnd].
    destruct (decide (k' = k)) as [->|Hne]; simpl.
    + by apply NoDup_cons.
    + apply NoDup_cons. split; [|by apply IH].
      rewrite elem_of_keys_store_set. intros [->|Hin]; done.
Qed.

Lemma paired_store_set d1 d2 w payments :
  Forall2 (paired api) d1 d2 →
  paired api (id w, w) (id w, payments) →
  Forall2 (paired api) (store_set d1 (id w) w) (store_set d2 (id w) payments).
Proof.
  intros Hd Hnew.
  induction Hd as [|[k1 w1] [k2 p2] d1 d2 Hhead Htail IH]; simpl.
  - constructor; [exact Hnew|constructor].
  - destruct Hhead as (Hk & Hhead). simpl in Hk. subst k2.
    destruct (decide (k1 = id w)) as [->|Hne].
    + by constructor.
    + constructor; [by split|exact IH].
Qed.

Lemma collect_wallet_keeps st w o st' :
  stores_ok api st → collect_wallet api st w = (o, Ok st') →
  stores_ok api st'.
Proof.
  intros [Hpaired Hnd]. unfold collect_wallet. intros Hrun.
  apply io_bind_Ok in Hrun as (o1 & payments & o2 & Hget & Hret & _).
  injection Hret as _ <-. split; simpl.
  - apply paired_store_set; [done|]. split; [done|]. split; [done|].
    by exists o1.
  - by apply NoDup_keys_store_set.
Qed.

Lemma collect_user_keeps st u o st' :
  stores_ok api st → collect_user api st u = (o, Ok st') →
  stores_ok api st'.
Proof.
  intros Hst. unfold collect_user. intros Hrun.
  apply io_bind_Ok in Hrun as (o1 & wallets & o2 & _ & Hloop & _).
  eapply (for_each_invariant (stores_ok api)); [|exact Hst|exact Hloop].
  intros s x o' s' Hs Hx. by eapply collect_wallet_keeps.
Qed.

Lemma paired_lookup d1 d2 wid w :
  Forall2 (paired api) d1 d2 → NoDup (map fst d1) → (wid, w) ∈ d1 →
  paired api (wid, w) (wid, store_get d2 wid []).
Proof.
  induction 1 as [|[k1 w1] [k2 p2] d1 d2 Hhead Htail IH]; simpl;
    intros Hnd Hin.
  - by apply elem_of_nil in Hin.
  - apply NoDup_cons in Hnd as [Hnotin Hnd].
    pose proof Hhead as (Hk & Hid & Hget). simpl in Hk. subst k2.
    apply elem_of_cons in Hin as [[= -> ->]|Hin].
    + rewrite decide_True by done. done.
    + rewrite decide_False.
      * by apply IH.
      * intros ->. apply Hnotin.
        apply list_elem_of_fmap. by exists (wid, w).
Qed.

End Stores.

(** X16. When the two loops of [main] that collect the wallets and their
    payments end normally, the two dictionaries handed to the aggregator
    agree: they hold the same wallet ids in the same order, every wallet
    is stored under its own id, and the list of payments stored under the
    id of a wallet is the list that [get_wallet_transactions] returned for
    that wallet, so the aggregator never falls back on the empty default
    for a wallet it goes through. *)
Theorem collected_stores_agree (api : lnbits) (users : list user)
    (out : output) (all_wallets : list (string * wallet))
    (all_transactions : list (string * list payment)) :
  for_each (collect_user api) users ([], [])
  = (out, Ok (all_wallets, all_transactions)) →
  map fst all_wallets = map fst all_transactions ∧
  ∀ wid w,
    (wid, w) ∈ all_wallets →
    id w = wid ∧
    wid ∈ map fst all_transactions ∧
    ∃ o, get_wallet_transactions w (payments_api api (adminkey w))
         = (o, Ok (store_get all_transactions wid [])).
Proof.
  intros Hrun.
  assert (stores_ok api (all_wallets, all_transactions)) as [Hpaired Hnd].
  { eapply (for_each_invariant (stores_ok api)); [| |exact Hrun].
    - intros s x o s' Hs Hx. by eapply collect_user_keeps.
    - split; simpl; constructor. }
  simpl in Hpaired, Hnd.
  assert (map fst all_wallets = map fst all_transactions) as Hkeys.
  { clear Hnd Hrun. induction Hpaired as [|e1 e2 d1 d2 [Hk _] _ IH]; [done|].
    simpl. by rewrite Hk, IH. }
  split; [exact Hkeys|].
  intros wid w Hin.
  destruct (paired_lookup api _ _ wid w Hpaired Hnd Hin) as (_ & Hid & Hget).
  split; [exact Hid|]. split; [|exact Hget].
  rewrite <- Hkeys. apply list_elem_of_fmap. by exists (wid, w).
Qed.

Lemma collected_stores_agree_witness :
  map fst [("w1"%string, mk_wallet "w1" "1 (@al)" "k1")]
  = map fst [("w1"%string, [mk_payment (Some (MemoText "faucet")) 5 700 None])] ∧
  ∀ wid w,
    (wid, w) ∈ [("w1"%string, mk_wallet "w1" "1 (@al)" "k1")] →
    id w = wid ∧
    wid ∈ map fst
            [("w1"%string, [mk_payment (Some (MemoText "faucet")) 5 700 None])] ∧
    ∃ o, get_wallet_transactions w
           (payments_api
              (mk_lnbits
                 (Ok (mk_response 200 "" (Ok [mk_user "u1"])))
                 (λ _, Ok (mk_response 200 ""
                             (Ok [mk_wallet "w1" "1 (@al)" "k1"])))
                 (λ _, Ok (mk_response 200 ""
                             (Ok [mk_payment (Some (MemoText "faucet")) 5 700
                                    None]))))
              (adminkey w))
         = (o, Ok (store_get
                     [("w1"%string,
                       [mk_payment (Some (MemoText "faucet")) 5 700 None])]
                     wid [])).
Proof.
  apply (collected_stores_agree
           (mk_lnbits
              (Ok (mk_response 200 "" (Ok [mk_user "u1"])))
              (λ _, Ok (mk_response 200 ""
                          (Ok [mk_wallet "w1" "1 (@al)" "k1"])))
              (λ _, Ok (mk_response 200 ""
                          (Ok [mk_payment (Some (MemoText "faucet")) 5 700
                                 None]))))
           [mk_user "u1"] []).
  reflexivity.
Defined.

(** X18. Once the users request gave at least one user and the loops
    that collect wallets and payments ended normally, [main] prints, after
    its first line and the messages of the fetchers, the heading, the rule
    of 50 dashes and the two reports of the totals of the collected
    payments, and returns; unless the body of the aggregation raises on a
    collected payment (a memo that is not a string, or a time that
    [datetime.fromtimestamp] refuses for a payment whose memo names the
    faucet): then [main] ends with the exception of the first such
    payment, and neither the heading nor a report is printed. *)
Theorem api_main_prints_reports (fmt : Z → string) (now : clock)
    (api : lnbits) (o1 o2 : output) (users : list user)
    (all_wallets : list (string * wallet))
    (all_transactions : list (string * list payment)) :
  get_users (users_api api) = (o1, Ok users) →
  users ≠ [] →
  for_each (collect_user api) users ([], [])
  = (o2, Ok (all_wallets, all_transactions)) →
  match first_error now
          (map snd (tagged_payments all_transactions all_wallets)) with
  | Some e =>
      main fmt now api
      = ( ["Fetching faucet statistics from LNbits..."%string] ++ o1 ++ o2,
          Raise e )
  | None =>
      ∃ distributed received,
        analyze_faucet_transactions now all_transactions all_wallets
        = Ok (distributed, received) ∧
        main fmt now api
        = ( ["Fetching faucet statistics from LNbits..."%string] ++ o1 ++
            o2 ++
            [ nl +:+ "Faucet Statistics for the Last 12 Months:";
              repeat_str "-" 50;
              format_stats fmt distributed
                "Total Amount Distributed per User";
              format_stats fmt received "Total Amount Received per User" ],
            Ok tt )
  end.
Proof.
  intros Husers Hne Hcollect.
  pose proof (ApiTotals.wallets_lookups now all_transactions all_wallets
                no_totals None) as Hrun.
  fold (analyze_faucet_transactions now all_transactions all_wallets)
    in Hrun.
  destruct (first_error now
              (map snd (tagged_payments all_transactions all_wallets)))
    as [e|].
  - unfold main. unfold mbind, io_mbind, io_bind, print at 1.
    rewrite Husers. destruct users as [|u users]; [done|].
    rewrite Hcollect. unfold lift. rewrite Hrun. simpl.
    by rewrite app_nil_r.
  - destruct Hrun as ([d r] & Hd & _). exists d, r. split; [exact Hd|].
    unfold main. unfold mbind, io_mbind, io_bind, print at 1.
    rewrite Husers. destruct users as [|u users]; [done|].
    rewrite Hcollect. unfold lift. rewrite Hd.
    unfold print. simpl. reflexivity.
Qed.

Lemma api_main_prints_reports_witness :
  ∃ distributed received,
    analyze_faucet_transactions (utc_clock 1700000000000000)
      [("w1"%string,
        [mk_payment (Some (MemoText "Faucet")) 1699990000 700 None])]
      [("w1"%string, mk_wallet "w1" "1 (@al)" "k1")]
    = Ok (distributed, received) ∧
    main Py.fmt_msat (utc_clock 1700000000000000)
      (mk_lnbits
         (Ok (mk_response 200 "" (Ok [mk_user "u1"])))
         (λ _, Ok (mk_response 200 ""
                     (Ok [mk_wallet "w1" "1 (@al)" "k1"])))
         (λ _, Ok (mk_response 200 ""
                     (Ok [mk_payment (Some (MemoText "Faucet"))
                            1699990000 700 None]))))
    = ( ["Fetching faucet statistics from LNbits..."%string] ++ [] ++ [] ++
        [ nl +:+ "Faucet Statistics for the Last 12 Months:";
          repeat_str "-" 50;
          format_stats Py.fmt_msat distributed
            "Total Amount Distributed per User";
          format_stats Py.fmt_msat received
            "Total Amount Received per User" ],
        Ok tt ).
Proof.
  apply (api_main_prints_reports Py.fmt_msat (utc_clock 1700000000000000)
           (mk_lnbits
              (Ok (mk_response 200 "" (Ok [mk_user "u1"])))
              (λ _, Ok (mk_response 200 ""
                          (Ok [mk_wallet "w1" "1 (@al)" "k1"])))
              (λ _, Ok (mk_response 200 ""
                          (Ok [mk_payment (Some (MemoText "Faucet"))
                                 1699990000 700 None]))))
           [] [] [mk_user "u1"]
           [("w1"%string, mk_wallet "w1" "1 (@al)" "k1")]
           [("w1"%string,
             [mk_payment (Some (MemoText "Faucet")) 1699990000 700 None])]).
  - reflexivity.
  - discriminate.
  - reflexivity.
Defined.

(** X19. The collection goes on after a failed request.  A user whose
    wallets request is answered with a status other than 200 costs one
    message and leaves the two dictionaries as they were; a wallet whose
    payments request is answered with a status other than 200 costs one
    message and is stored with an empty list of payments. *)
Theorem collect_continues_after_failure (api : lnbits)
    (st : list (string * wallet) * list (string * list payment))
    (u : user) (w : wallet)
    (rw : response (list wallet)) (rp : response (list payment)) :
  wallets_api api (user_id u) = Ok rw → status_code rw ≠ 200 →
  payments_api api (adminkey w) = Ok rp → status_code rp ≠ 200 →
  collect_user api st u
  = ( ["Error getting wallets for user " +:+ user_id u +:+ ": " +:+ text rw],
      Ok st ) ∧
  collect_wallet api st w
  = ( ["Error getting transactions for wallet " +:+ id w +:+ ": " +:+
       text rp],
      Ok (store_set st.1 (id w) w, store_set st.2 (id w) []) ).
Proof.
  intros Hw Hsw Hp Hsp. apply Z.eqb_neq in Hsw, Hsp. split.
  - unfold collect_user, get_user_wallets, lift.
    unfold mbind, io_mbind, io_bind. rewrite Hw, Hsw. simpl.
    by destruct st.
  - unfold collect_wallet, get_wallet_transactions, lift.
    unfold mbind, io_mbind, io_bind. rewrite Hp, Hsp. reflexivity.
Qed.

Lemma collect_continues_after_failure_witness :
  collect_user
    (mk_lnbits (Raise (RequestException "unused"))
       (λ _, Ok (mk_response 500 "boom" (Ok [])))
       (λ _, Ok (mk_response 403 "denied" (Ok []))))
    ([], []) (mk_user "u1")
  = ( ["Error getting wallets for user " +:+ "u1" +:+ ": " +:+ "boom"],
      Ok ([], []) ) ∧
  collect_wallet
    (mk_lnbits (Raise (RequestException "unused"))
       (λ _, Ok (mk_response 500 "boom" (Ok [])))
       (λ _, Ok (mk_response 403 "denied" (Ok []))))
    ([], []) (mk_wallet "w1" "alice" "k1")
  = ( ["Error getting transactions for wallet " +:+ "w1" +:+ ": " +:+
       "denied"],
      Ok ([("w1"%string, mk_wallet "w1" "alice" "k1")],
          [("w1"%string, [])]) ).
Proof.
  apply (collect_continues_after_failure
           (mk_lnbits (Raise (RequestException "unused"))
              (λ _, Ok (mk_response 500 "boom" (Ok [])))
              (λ _, Ok (mk_response 403 "denied" (Ok []))))
           ([], []) (mk_user "u1") (mk_wallet "w1" "alice" "k1")
           (mk_response 500 "boom" (Ok []))
           (mk_response 403 "denied" (Ok [])));
    first [reflexivity | simpl; lia].
Defined.

End ApiCollect.

(** ** The order of the report lines is determined *)

Module ReportOrder.
Import Py PyFacts.

Section Unique.
Context {K : Type}.
Implicit Types (x y : K * Z) (l : list (K * Z)).

Lemma same_groups_nil l :
  (∀ v, filter (λ y, y.2 = v) l = []) → l = [].
Proof.
  destruct l as [|y l]; [done|]. intros H. specialize (H y.2).
  rewrite filter_cons, decide_True in H by done. done.
Qed.

Lemma same_groups_tail x l1 l2 :
  (∀ v, filter (λ y, y.2 = v) (x :: l1) = filter (λ y, y.2 = v) (x :: l2)) →
  ∀ v, filter (λ y, y.2 = v) l1 = filter (λ y, y.2 = v) l2.
Proof.
  intros H v. specialize (H v). rewrite !filter_cons in H.
  destruct (decide (x.2 = v)); [by injection H|done].
Qed.

(** Two lists in descending order of value whose items of each value are
    the same, in the same order, are the same list. *)
Lemma sorted_same_groups_eq l1 l2 :
  StronglySorted value_ge l1 → StronglySorted value_ge l2 →
  (∀ v, filter (λ y, y.2 = v) l1 = filter (λ y, y.2 = v) l2) →
  l1 = l2.
Proof.
  intros Hs1. revert l2.
  induction Hs1 as [|x l1 Hs1 IH Hx]; intros l2 Hs2 Hgroups.
  - symmetry. apply same_groups_nil. intros v. by rewrite <- Hgroups.
  - destruct Hs2 as [|y l2 Hs2 Hy].
    + specialize (Hgroups x.2).
      rewrite filter_cons, decide_True in Hgroups by done. done.
    + assert (y.2 ≤ x.2) as Hle1.
      { assert (y ∈ filter (λ z, z.2 = y.2) (x :: l1)) as Hin.
        { rewrite Hgroups, filter_cons, decide_True by done.
          apply elem_of_cons. by left. }
        apply list_elem_of_filter in Hin as [_ Hin].
        apply elem_of_cons in Hin as [->|Hin]; [lia|].
        rewrite Forall_forall in Hx. by apply Hx. }
      assert (x.2 ≤ y.2) as Hle2.
      { assert (x ∈ filter (λ z, z.2 = x.2) (y :: l2)) as Hin.
        { rewrite <- Hgroups, filter_cons, decide_True by done.
          apply elem_of_cons. by left. }
        apply list_elem_of_filter in Hin as [_ Hin].
        apply elem_of_cons in Hin as [->|Hin]; [lia|].
        rewrite Forall_forall in Hy. by apply Hy. }
      assert (x = y) as <-.
      { pose proof (Hgroups x.2) as H.
        rewrite !filter_cons, !decide_True in H by lia.
        by injection H. }
      f_equal. apply IH; [done|]. by eapply same_groups_tail.
Qed.

End Unique.

(** X17. The order of the lines of a report is fully determined by the
    mapping: an arrangement of the items that is descending by amount and
    that keeps the items of each amount in the order of the mapping is the
    arrangement [format_stats] goes through, in either script. *)
Theorem report_order_unique :
  (∀ (stats : dict string) (rows : list (string * Z)),
     StronglySorted value_ge rows →
     (∀ v, filter (λ y, y.2 = v) rows
           = filter (λ y, y.2 = v) (items stats)) →
     rows = FaucetStats.report_rows stats) ∧
  (∀ (stats : dict (option string)) (rows : list (option string * Z)),
     StronglySorted value_ge rows →
     (∀ v, filter (λ y, y.2 = v) rows
           = filter (λ y, y.2 = v) (items stats)) →
     rows = GetFaucetStats.report_rows stats).
Proof.
  split; intros stats rows Hsorted Hgroups.
  - apply sorted_same_groups_eq; [done| |].
    + apply sorted_by_value_desc_sorted.
    + intros v. unfold FaucetStats.report_rows.
      by rewrite sorted_by_value_desc_stable.
  - apply sorted_same_groups_eq; [done| |].
    + apply sorted_by_value_desc_sorted.
    + intros v. unfold GetFaucetStats.report_rows.
      by rewrite sorted_by_value_desc_stable.
Qed.

Lemma report_order_unique_witness :
  [("B"%string, 7); ("A"%string, 5); ("C"%string, 5)]
  = FaucetStats.report_rows
      [("A"%string, 5); ("B"%string, 7); ("C"%string, 5)].
Proof.
  apply (proj1 report_order_unique
           [("A"%string, 5); ("B"%string, 7); ("C"%string, 5)]
           [("B"%string, 7); ("A"%string, 5); ("C"%string, 5)]).
  - repeat constructor; unfold value_ge; simpl; lia.
  - intros v. unfold items. rewrite !filter_cons, !filter_nil. simpl.
    destruct (decide (5 = v)), (decide (7 = v)); try done. lia.
Defined.

End ReportOrder.
